(** * News site: the content data model, its save pipeline and its queries

    A shallow embedding of [news/models.py], [news/forms.py],
    [news/views.py], [news/admin.py] and [news/admin_views.py].

    Conventions of the embedding.
    - A Python [str] is a [string]; a character is an 8-bit code point.
    - A [DateTimeField] is a [Z] (seconds since the epoch); a nullable one
      is an [option Z], [None] being Python's [None] / SQL's [NULL].
    - Primary keys and foreign keys are [Z].
    - A table is the list of its rows in the order the store scans them.
    - [timezone.now()] is an explicit argument [now] of each operation. *)

From Stdlib Require Import List ZArith String Ascii Bool Lia Arith Sorted Permutation.
Import ListNotations.
Local Open Scope string_scope.
Local Open Scope Z_scope.

(* ------------------------------------------------------------------ *)
(** ** Python string primitives used by the models *)

Module PyStr.

(** [str.isspace] on one character, restricted to code points below 256:
    TAB..CR, FS..US, SPACE, NEL and NBSP. *)
Definition isspace (c : ascii) : bool :=
  let n := nat_of_ascii c in
  ((9 <=? n) && (n <=? 13) || (28 <=? n) && (n <=? 32)
   || (n =? 133) || (n =? 160))%nat.

(** [bool(s)]: a string is truthy when it is not empty. *)
Definition truthy (s : string) : bool :=
  match s with EmptyString => false | String _ _ => true end.

(** [len(s)] *)
Definition len (s : string) : Z := Z.of_nat (String.length s).

(** [s[:n]] for a non-negative [n]. *)
Fixpoint take (n : nat) (s : string) : string :=
  match n, s with
  | O, _ => EmptyString
  | S _, EmptyString => EmptyString
  | S k, String c r => String c (take k r)
  end.

(** [s.split()]: the maximal runs of non-whitespace characters, in
    order.  [cur] is the run being read. *)
Fixpoint split_from (cur : string) (s : string) : list string :=
  match s with
  | EmptyString => if truthy cur then [cur] else []
  | String c r =>
      if isspace c
      then (if truthy cur then cur :: split_from EmptyString r
            else split_from EmptyString r)
      else split_from (cur ++ String c EmptyString) r
  end.

Definition split (s : string) : list string := split_from EmptyString s.

(** [s.lstrip()], [s.rstrip()], [s.strip()] *)
Fixpoint lstrip (s : string) : string :=
  match s with
  | EmptyString => EmptyString
  | String c r => if isspace c then lstrip r else s
  end.

Fixpoint rstrip (s : string) : string :=
  match s with
  | EmptyString => EmptyString
  | String c r =>
      match rstrip r with
      | EmptyString => if isspace c then EmptyString else String c EmptyString
      | r' => String c r'
      end
  end.

Definition strip (s : string) : string := rstrip (lstrip s).

(** [s.lower()] on the ASCII letters. *)
Definition lower_char (c : ascii) : ascii :=
  let n := nat_of_ascii c in
  if ((65 <=? n) && (n <=? 90))%nat then ascii_of_nat (n + 32) else c.

Fixpoint lower (s : string) : string :=
  match s with
  | EmptyString => EmptyString
  | String c r => String (lower_char c) (lower r)
  end.

(** [needle in hay] *)
Fixpoint contains (needle hay : string) : bool :=
  String.prefix needle hay
  || match hay with
     | EmptyString => false
     | String _ r => contains needle r
     end.

(** The [icontains] lookup: case-insensitive containment. *)
Definition icontains (hay needle : string) : bool :=
  contains (lower needle) (lower hay).

(** Whether the text holds a NUL character, which every form character
    field refuses ([ProhibitNullCharactersValidator]). *)
Fixpoint has_nul (s : string) : bool :=
  match s with
  | EmptyString => false
  | String c r => (nat_of_ascii c =? 0)%nat || has_nul r
  end.

(** The number of words of a text, said directly: a word starts at every
    non-whitespace character that is first or follows whitespace. *)
Fixpoint word_starts (after_space : bool) (s : string) : nat :=
  match s with
  | EmptyString => O
  | String c r =>
      if isspace c then word_starts true r
      else ((if after_space then 1 else 0) + word_starts false r)%nat
  end.

Definition wordCount (s : string) : Z := Z.of_nat (word_starts true s).

End PyStr.

(* ------------------------------------------------------------------ *)
(** ** [models.py]: Article *)

Inductive Status := Draft | Published | Archived.
Inductive Featured := Normal | FeaturedTier | Trending | Breaking.

Definition Status_eqb (a b : Status) : bool :=
  match a, b with
  | Draft, Draft | Published, Published | Archived, Archived => true
  | _, _ => false
  end.

Definition Featured_eqb (a b : Featured) : bool :=
  match a, b with
  | Normal, Normal | FeaturedTier, FeaturedTier
  | Trending, Trending | Breaking, Breaking => true
  | _, _ => false
  end.

Record Article := mkArticle {
  a_id : Z;
  title : string;
  slug : string;
  content : string;
  excerpt : string;
  author : Z;
  category : Z;
  tags : list Z;
  status : Status;
  featured : Featured;
  is_published : bool;
  created_at : Z;
  published_at : option Z;
  meta_description : string;
  meta_keywords : string;
  view_count : Z;
  share_count : Z;
  reading_time : Z
}.

(** Field assignments, one per attribute the code writes. *)
Definition set_slug v a := mkArticle (a_id a) (title a) v (content a) (excerpt a) (author a) (category a) (tags a) (status a) (featured a) (is_published a) (created_at a) (published_at a) (meta_description a) (meta_keywords a) (view_count a) (share_count a) (reading_time a).
Definition set_excerpt v a := mkArticle (a_id a) (title a) (slug a) (content a) v (author a) (category a) (tags a) (status a) (featured a) (is_published a) (created_at a) (published_at a) (meta_description a) (meta_keywords a) (view_count a) (share_count a) (reading_time a).
Definition set_meta_description v a := mkArticle (a_id a) (title a) (slug a) (content a) (excerpt a) (author a) (category a) (tags a) (status a) (featured a) (is_published a) (created_at a) (published_at a) v (meta_keywords a) (view_count a) (share_count a) (reading_time a).
Definition set_reading_time v a := mkArticle (a_id a) (title a) (slug a) (content a) (excerpt a) (author a) (category a) (tags a) (status a) (featured a) (is_published a) (created_at a) (published_at a) (meta_description a) (meta_keywords a) (view_count a) (share_count a) v.
Definition set_status v a := mkArticle (a_id a) (title a) (slug a) (content a) (excerpt a) (author a) (category a) (tags a) v (featured a) (is_published a) (created_at a) (published_at a) (meta_description a) (meta_keywords a) (view_count a) (share_count a) (reading_time a).
Definition set_is_published v a := mkArticle (a_id a) (title a) (slug a) (content a) (excerpt a) (author a) (category a) (tags a) (status a) (featured a) v (created_at a) (published_at a) (meta_description a) (meta_keywords a) (view_count a) (share_count a) (reading_time a).
Definition set_published_at v a := mkArticle (a_id a) (title a) (slug a) (content a) (excerpt a) (author a) (category a) (tags a) (status a) (featured a) (is_published a) (created_at a) v (meta_description a) (meta_keywords a) (view_count a) (share_count a) (reading_time a).
Definition set_view_count v a := mkArticle (a_id a) (title a) (slug a) (content a) (excerpt a) (author a) (category a) (tags a) (status a) (featured a) (is_published a) (created_at a) (published_at a) (meta_description a) (meta_keywords a) v (share_count a) (reading_time a).
Definition set_share_count v a := mkArticle (a_id a) (title a) (slug a) (content a) (excerpt a) (author a) (category a) (tags a) (status a) (featured a) (is_published a) (created_at a) (published_at a) (meta_description a) (meta_keywords a) (view_count a) v (reading_time a).

(** [bool(self.published_at)]: a datetime is always truthy, [None] is not. *)
Definition datetime_truthy (d : option Z) : bool :=
  match d with Some _ => true | None => false end.

Section ArticleSave.

(** [django.utils.text.slugify], which the repository imports. *)
Variable slugify : string -> string.

(** [Article.save], up to the call of [super().save]: the derivation
    pipeline on the instance, statement by statement. *)
Definition derive_slug (a : Article) : Article :=
  if negb (PyStr.truthy (slug a)) then set_slug (slugify (title a)) a else a.

Definition derive_excerpt (a : Article) : Article :=
  if negb (PyStr.truthy (excerpt a)) && PyStr.truthy (content a)
  then set_excerpt
         (if PyStr.len (content a) >? 200
          then PyStr.take 200 (content a) ++ "..."
          else content a) a
  else a.

Definition derive_meta_description (a : Article) : Article :=
  if negb (PyStr.truthy (meta_description a)) && PyStr.truthy (excerpt a)
  then set_meta_description (PyStr.take 160 (excerpt a)) a
  else a.

Definition derive_reading_time (a : Article) : Article :=
  let word_count := Z.of_nat (List.length (PyStr.split (content a))) in
  set_reading_time (Z.max 1 (word_count / 200)) a.

Definition derive_published (now : Z) (a : Article) : Article :=
  if Status_eqb (status a) Published && negb (datetime_truthy (published_at a))
  then set_is_published true (set_published_at (Some now) a)
  else a.

Definition Article_save (now : Z) (a : Article) : Article :=
  derive_published now
    (derive_reading_time
       (derive_meta_description
          (derive_excerpt
             (derive_slug a)))).

(** The stages that run before the publication rule. *)
Definition derived (a : Article) : Article :=
  derive_reading_time (derive_meta_description (derive_excerpt (derive_slug a))).

End ArticleSave.

(* ------------------------------------------------------------------ *)
(** ** The remaining models of [models.py] *)

Record Category := mkCategory {
  c_id : Z;
  c_name : string;
  c_slug : string;
  c_is_active : bool
}.

Record Tag := mkTag {
  t_id : Z;
  t_name : string;
  t_slug : string
}.

(** [Comment].  [article] and [author] are required foreign keys: [None]
    is the state of an instance on which the attribute was never assigned,
    and the store refuses to insert such a row (NOT NULL). *)
Record Comment := mkComment {
  cm_id : Z;
  cm_article : option Z;
  cm_author : option Z;
  cm_parent : option Z;
  cm_content : string;
  cm_is_approved : bool;
  cm_is_highlighted : bool;
  cm_created_at : Z;
  cm_is_moderated : bool;
  cm_moderated_by : option Z;
  cm_moderated_at : option Z
}.

Inductive Frequency := Daily | Weekly | Monthly.

Record Newsletter := mkNewsletter {
  n_id : Z;
  n_email : string;
  n_is_active : bool;
  n_subscribed_at : Z;
  n_unsubscribed_at : option Z;
  n_categories : list Z;
  n_frequency : Frequency
}.

Record ContactMessage := mkContactMessage {
  k_id : Z;
  k_name : string;
  k_email : string;
  k_subject : string;
  k_message : string;
  k_is_read : bool
}.

(** The relational store. *)
Record Store := mkStore {
  articles : list Article;
  categories : list Category;
  all_tags : list Tag;
  comments : list Comment;
  newsletters : list Newsletter;
  contacts : list ContactMessage
}.

Definition with_articles v s := mkStore v (categories s) (all_tags s) (comments s) (newsletters s) (contacts s).
Definition with_comments v s := mkStore (articles s) (categories s) (all_tags s) v (newsletters s) (contacts s).
Definition with_newsletters v s := mkStore (articles s) (categories s) (all_tags s) (comments s) v (contacts s).
Definition with_contacts v s := mkStore (articles s) (categories s) (all_tags s) (comments s) (newsletters s) v.

(** [x in xs] on keys. *)
Definition mem (x : Z) (xs : list Z) : bool := existsb (Z.eqb x) xs.

(** A primary key for a new row of a table whose keys are [ids]: the
    one after the largest.  It is the key the store's sequence gives as
    long as no row with a larger key was deleted before; after such a
    delete the sequence gives a larger one still.  The properties rest on
    this only: the key is not in the table ([fresh_id_above]). *)
Definition fresh_id (ids : list Z) : Z := 1 + fold_right Z.max 0 ids.

(* ------------------------------------------------------------------ *)
(** ** Persisting an article: [super().save(update_fields=...)] *)

Inductive ArticleField := F_view_count | F_share_count.

(** The row written for instance [inst] whose stored row is [old]: every
    column without [update_fields], the listed columns with it. *)
Definition write_field (inst : Article) (f : ArticleField) (row : Article) : Article :=
  match f with
  | F_view_count => set_view_count (view_count inst) row
  | F_share_count => set_share_count (share_count inst) row
  end.

Definition persisted (update_fields : option (list ArticleField))
    (inst old : Article) : Article :=
  match update_fields with
  | None => inst
  | Some fs => fold_right (write_field inst) old fs
  end.

(* ------------------------------------------------------------------ *)
(** ** [forms.py]: ArticleForm, and the admin's model form of [admin.py] *)

(** The posted values of [ArticleForm.Meta.fields] (the image fields, which
    no rule here reads, are left out). *)
Record ArticleFormData := mkArticleFormData {
  f_title : string;
  f_content : string;
  f_excerpt : string;
  f_category : Z;
  f_tags : list Z;
  f_status : Status;
  f_meta_description : string;
  f_meta_keywords : string
}.

(** Form cleaning: character fields are stripped and must hold no NUL
    character; the model's validators (title of 10 to 200 characters,
    content of at least 50, the length limits) and the choice querysets
    (active categories, existing tags) decide validity. *)
Definition ArticleForm_is_valid (s : Store) (d : ArticleFormData) : bool :=
  negb (PyStr.has_nul (PyStr.strip (f_title d)))
  && negb (PyStr.has_nul (PyStr.strip (f_content d)))
  && negb (PyStr.has_nul (PyStr.strip (f_excerpt d)))
  && negb (PyStr.has_nul (PyStr.strip (f_meta_description d)))
  && negb (PyStr.has_nul (PyStr.strip (f_meta_keywords d)))
  && (10 <=? PyStr.len (PyStr.strip (f_title d)))
  && (PyStr.len (PyStr.strip (f_title d)) <=? 200)
  && (50 <=? PyStr.len (PyStr.strip (f_content d)))
  && (PyStr.len (PyStr.strip (f_excerpt d)) <=? 500)
  && (PyStr.len (PyStr.strip (f_meta_description d)) <=? 160)
  && (PyStr.len (PyStr.strip (f_meta_keywords d)) <=? 200)
  && existsb (fun c => (c_id c =? f_category d) && c_is_active c) (categories s)
  && forallb (fun t => existsb (fun r => t_id r =? t) (all_tags s)) (f_tags d).

(** The instance after the form wrote its fields on it. *)
Definition ArticleForm_apply (d : ArticleFormData) (a : Article) : Article :=
  mkArticle (a_id a) (PyStr.strip (f_title d)) (slug a)
    (PyStr.strip (f_content d)) (PyStr.strip (f_excerpt d))
    (author a) (f_category d) (f_tags d) (f_status d) (featured a)
    (is_published a) (created_at a) (published_at a)
    (PyStr.strip (f_meta_description d)) (PyStr.strip (f_meta_keywords d))
    (view_count a) (share_count a) (reading_time a).

(** The editable fields of [ArticleAdmin.fieldsets]: every field listed
    there that is not in [readonly_fields]. *)
Record ArticleAdminData := mkArticleAdminData {
  ad_title : string;
  ad_slug : string;
  ad_content : string;
  ad_excerpt : string;
  ad_author : Z;
  ad_category : Z;
  ad_tags : list Z;
  ad_status : Status;
  ad_featured : Featured;
  ad_is_published : bool;
  ad_published_at : option Z;
  ad_meta_description : string;
  ad_meta_keywords : string
}.

Definition ArticleAdmin_apply (d : ArticleAdminData) (a : Article) : Article :=
  mkArticle (a_id a) (PyStr.strip (ad_title d)) (PyStr.strip (ad_slug d))
    (PyStr.strip (ad_content d)) (PyStr.strip (ad_excerpt d))
    (ad_author d) (ad_category d) (ad_tags d) (ad_status d) (ad_featured d)
    (ad_is_published d) (created_at a) (ad_published_at d)
    (PyStr.strip (ad_meta_description d)) (PyStr.strip (ad_meta_keywords d))
    (view_count a) (share_count a) (reading_time a).

(** [validate_slug]: letters, digits, hyphens and underscores. *)
Definition slug_char (c : ascii) : bool :=
  let n := nat_of_ascii c in
  ((48 <=? n) && (n <=? 57) || (65 <=? n) && (n <=? 90)
   || (97 <=? n) && (n <=? 122) || (n =? 45) || (n =? 95))%nat.

Fixpoint valid_slug (s : string) : bool :=
  match s with
  | EmptyString => true
  | String c r => slug_char c && valid_slug r
  end.

(** Whether a row other than the one with key [i] has the slug [sl]: the
    uniqueness of [Article.slug], which the model form checks on the posted
    slug and the store on the saved one. *)
Definition slug_taken (s : Store) (i : Z) (sl : string) : bool :=
  existsb (fun r => negb (a_id r =? i) && String.eqb (slug r) sl) (articles s).

(** The validation of the admin's change form for the stored article
    [row].  [users] are the keys of the user table, which the store of this
    embedding does not hold.  Character fields are stripped and hold no NUL
    character; title, content and the length limits are as in [ArticleForm];
    a slug that is given is a valid one of at most 200 characters; the slug
    posted belongs to no other article; author, category (active or not)
    and tags exist.  The inline comment forms of the page are taken as
    posted unchanged. *)
Definition ArticleAdmin_is_valid (users : list Z) (s : Store)
    (d : ArticleAdminData) (row : Article) : bool :=
  negb (PyStr.has_nul (PyStr.strip (ad_title d)))
  && negb (PyStr.has_nul (PyStr.strip (ad_slug d)))
  && negb (PyStr.has_nul (PyStr.strip (ad_content d)))
  && negb (PyStr.has_nul (PyStr.strip (ad_excerpt d)))
  && negb (PyStr.has_nul (PyStr.strip (ad_meta_description d)))
  && negb (PyStr.has_nul (PyStr.strip (ad_meta_keywords d)))
  && (10 <=? PyStr.len (PyStr.strip (ad_title d)))
  && (PyStr.len (PyStr.strip (ad_title d)) <=? 200)
  && valid_slug (PyStr.strip (ad_slug d))
  && (PyStr.len (PyStr.strip (ad_slug d)) <=? 200)
  && negb (slug_taken s (a_id row) (PyStr.strip (ad_slug d)))
  && (50 <=? PyStr.len (PyStr.strip (ad_content d)))
  && (PyStr.len (PyStr.strip (ad_excerpt d)) <=? 500)
  && (PyStr.len (PyStr.strip (ad_meta_description d)) <=? 160)
  && (PyStr.len (PyStr.strip (ad_meta_keywords d)) <=? 200)
  && mem (ad_author d) users
  && existsb (fun c => c_id c =? ad_category d) (categories s)
  && forallb (fun t => existsb (fun r => t_id r =? t) (all_tags s)) (ad_tags d).

Section ArticleRequests.

Variable slugify : string -> string.

(** [Article.increment_view_count]: the instance after the call and the
    row the store holds after it. *)
Definition increment_view_count (now : Z) (row : Article) : Article * Article :=
  let inst := Article_save slugify now (set_view_count (view_count row + 1) row) in
  (inst, persisted (Some [F_view_count]) inst row).

Definition increment_share_count (now : Z) (row : Article) : Article * Article :=
  let inst := Article_save slugify now (set_share_count (share_count row + 1) row) in
  (inst, persisted (Some [F_share_count]) inst row).

(** [ArticleUpdateView] and [admin_article_edit]: a valid form is written
    on the stored instance and saved; an invalid one writes nothing.  A
    save whose slug, derived from the title because the row had none, is
    the slug of another row is refused by the store, and the row stays as
    it was. *)
Definition ArticleForm_save (s : Store) (now : Z) (d : ArticleFormData)
    (row : Article) : Article :=
  if ArticleForm_is_valid s d then
    let obj := Article_save slugify now (ArticleForm_apply d row) in
    if slug_taken s (a_id obj) (slug obj) then row else obj
  else row.

(** The admin's change of the stored article [row], and the row the store
    holds after it.  The admin validates the form first and writes nothing
    for an invalid one; for a valid one [ArticleAdmin.save_model] runs with
    the form's values on the instance and calls [obj.save()].  A save whose
    slug, derived from the title because none was posted, is the slug of
    another row is refused by the store, and the row stays as it was. *)
Definition ArticleAdmin_save_model (users : list Z) (s : Store) (now : Z)
    (d : ArticleAdminData) (row : Article) : Article :=
  if ArticleAdmin_is_valid users s d row then
    let obj := Article_save slugify now (ArticleAdmin_apply d row) in
    if slug_taken s (a_id obj) (slug obj) then row else obj
  else row.

(** One per-article request outside the bulk actions, and the stored row
    after it. *)
Inductive ArticleOp :=
| OpFormSave (d : ArticleFormData)
| OpView
| OpShare.

Definition step (s : Store) (row : Article) (o : Z * ArticleOp) : Article :=
  match snd o with
  | OpFormSave d => ArticleForm_save s (fst o) d row
  | OpView => snd (increment_view_count (fst o) row)
  | OpShare => snd (increment_share_count (fst o) row)
  end.

(** A sequence of requests, each with its call time, oldest first. *)
Definition run (s : Store) (row : Article) (os : list (Z * ArticleOp)) : Article :=
  fold_left (step s) os row.

End ArticleRequests.

(* ------------------------------------------------------------------ *)
(** ** Query sets: filters, ordering, slicing *)

(** The universal visibility predicate,
    [filter(status='published', is_published=True)]. *)
Definition visible (a : Article) : bool :=
  Status_eqb (status a) Published && is_published a.

(** Comparison of nullable timestamps, [NULL] below every value. *)
Definition opt_leb (x y : option Z) : bool :=
  match x, y with
  | None, _ => true
  | Some _, None => false
  | Some u, Some v => u <=? v
  end.

Definition opt_eqb (x y : option Z) : bool :=
  match x, y with
  | None, None => true
  | Some u, Some v => u =? v
  | _, _ => false
  end.

(** [ORDER BY]: the rows sorted by a "comes no later than" test.  Rows
    that the test does not tell apart stay in the order in which the store
    produced them; SQL leaves that order to the store. *)
Section OrderBy.
Context {A : Type} (before : A -> A -> bool).

Fixpoint insert_row (x : A) (l : list A) : list A :=
  match l with
  | [] => [x]
  | y :: r => if before x y then x :: y :: r else y :: insert_row x r
  end.

Definition order_by (l : list A) : list A := fold_right insert_row [] l.
End OrderBy.

(** [order_by('-published_at')] *)
Definition by_published_desc (x y : Article) : bool :=
  opt_leb (published_at y) (published_at x).

(** [Article.Meta.ordering = ['-published_at', '-created_at']] *)
Definition by_meta_ordering (x y : Article) : bool :=
  if opt_eqb (published_at x) (published_at y)
  then created_at y <=? created_at x
  else opt_leb (published_at y) (published_at x).

(** [order_by('-view_count')] *)
Definition by_views_desc (x y : Article) : bool :=
  view_count y <=? view_count x.

(** [.distinct()] on rows that carry their primary key. *)
Fixpoint distinct_from (seen : list Z) (l : list Article) : list Article :=
  match l with
  | [] => []
  | x :: r =>
      if mem (a_id x) seen then distinct_from seen r
      else x :: distinct_from (a_id x :: seen) r
  end.

Definition distinct (l : list Article) : list Article := distinct_from [] l.

(** The calendar day of a timestamp, for the [__date] transform. *)
Definition date_of (t : Z) : Z := t / 86400.

(* ------------------------------------------------------------------ *)
(** ** [views.py]: the reader-facing listings *)

(** The query string of the article list.  [None] is an absent parameter;
    the two dates are calendar days. *)
Record ListParams := mkListParams {
  p_q : option string;
  p_category : option string;
  p_tag : option string;
  p_date_from : option Z;
  p_date_to : option Z
}.

(** [if value:] on a GET parameter. *)
Definition given (v : option string) : bool :=
  match v with Some s => PyStr.truthy s | None => false end.

Definition text_of (v : option string) : string :=
  match v with Some s => s | None => EmptyString end.

(** The rows of the tag table joined to an article. *)
Definition tags_of (s : Store) (a : Article) : list Tag :=
  filter (fun t => mem (t_id t) (tags a)) (all_tags s).

Definition category_of (s : Store) (a : Article) : list Category :=
  filter (fun c => c_id c =? category a) (categories s).

(** The search disjunction: title, content, excerpt or a tag name. *)
Definition matches_search (s : Store) (q : string) (a : Article) : bool :=
  PyStr.icontains (title a) q
  || PyStr.icontains (content a) q
  || PyStr.icontains (excerpt a) q
  || existsb (fun t => PyStr.icontains (t_name t) q) (tags_of s a).

Definition published_date_ge (d : Z) (a : Article) : bool :=
  match published_at a with Some t => d <=? date_of t | None => false end.

Definition published_date_le (d : Z) (a : Article) : bool :=
  match published_at a with Some t => date_of t <=? d | None => false end.

(** Apply [f] when the parameter is given, as the chained [if]s do. *)
Definition when_ {A} (c : bool) (f : A -> A) (x : A) : A := if c then f x else x.

(** [HomeView.get_queryset]: the visible articles in the model's default
    ordering. *)
Definition HomeView_get_queryset (s : Store) : list Article :=
  order_by by_meta_ordering (filter visible (articles s)).

(** [ArticleListView.get_queryset] (listRecent).  The joins on the tag
    table are existential tests: the search is followed by [distinct()],
    and a tag slug, being unique, matches an article at most once. *)
Definition ArticleListView_get_queryset (s : Store) (p : ListParams) : list Article :=
  let queryset := filter visible (articles s) in
  let queryset :=
    when_ (given (p_q p))
      (fun qs => distinct (filter (matches_search s (text_of (p_q p))) qs)) queryset in
  let queryset :=
    when_ (given (p_category p))
      (filter (fun a => existsb (fun c => String.eqb (c_slug c) (text_of (p_category p)))
                          (category_of s a))) queryset in
  let queryset :=
    when_ (given (p_tag p))
      (filter (fun a => existsb (fun t => String.eqb (t_slug t) (text_of (p_tag p)))
                          (tags_of s a))) queryset in
  let queryset :=
    match p_date_from p with
    | Some d => filter (published_date_ge d) queryset
    | None => queryset
    end in
  let queryset :=
    match p_date_to p with
    | Some d => filter (published_date_le d) queryset
    | None => queryset
    end in
  order_by by_published_desc queryset.

(** [ArticleDetailView]: the object of the visible queryset with the slug
    of the URL, or a 404 ([None]). *)
Definition ArticleDetailView_get_object (s : Store) (sl : string) : option Article :=
  find (fun a => String.eqb (slug a) sl) (filter visible (articles s)).

(** [Article.get_related_articles] (getRelated). *)
Definition get_related_articles (s : Store) (self : Article) (limit : nat) : list Article :=
  firstn limit
    (order_by by_meta_ordering
       (distinct
          (filter (fun a => negb (a_id a =? a_id self))
             (filter (fun a => (category a =? category self)
                               || existsb (fun t => mem t (tags self)) (tags a))
                (articles s))))).

(** [HomeView.get_context_data]: the featured highlights ... *)
Definition featured_articles (s : Store) : list Article :=
  firstn 6
    (order_by by_meta_ordering
       (filter (fun a => visible a
                         && (Featured_eqb (featured a) FeaturedTier
                             || Featured_eqb (featured a) Trending
                             || Featured_eqb (featured a) Breaking))
          (articles s))).

(** ... and the trending articles of the last seven days. *)
Definition trending_articles (s : Store) (now : Z) : list Article :=
  let week_ago := now - 7 * 86400 in
  firstn 5
    (order_by by_views_desc
       (filter (fun a => visible a
                         && match published_at a with
                            | Some t => week_ago <=? t
                            | None => false
                            end)
          (articles s))).

(* ------------------------------------------------------------------ *)
(** ** Comments: [forms.py], [views.py], [admin_views.py] *)

(** What a view answers: it completes with a new store, or the request
    ends in a 404, or the store refuses a write. *)
Inductive Response :=
| Done (s : Store)
| Http404
| IntegrityError.

Inductive Method := GET | POST.

(** A fresh [Comment] instance holding the form's [content]: every other
    field at its declared default, no key, no relations. *)
Definition Comment_new (text : string) : Comment :=
  mkComment 0 None None None text true false 0 false None None.

Definition cm_with_article v c := mkComment (cm_id c) v (cm_author c) (cm_parent c) (cm_content c) (cm_is_approved c) (cm_is_highlighted c) (cm_created_at c) (cm_is_moderated c) (cm_moderated_by c) (cm_moderated_at c).
Definition cm_with_author v c := mkComment (cm_id c) (cm_article c) v (cm_parent c) (cm_content c) (cm_is_approved c) (cm_is_highlighted c) (cm_created_at c) (cm_is_moderated c) (cm_moderated_by c) (cm_moderated_at c).
Definition cm_with_parent v c := mkComment (cm_id c) (cm_article c) (cm_author c) v (cm_content c) (cm_is_approved c) (cm_is_highlighted c) (cm_created_at c) (cm_is_moderated c) (cm_moderated_by c) (cm_moderated_at c).
Definition cm_with_is_approved v c := mkComment (cm_id c) (cm_article c) (cm_author c) (cm_parent c) (cm_content c) v (cm_is_highlighted c) (cm_created_at c) (cm_is_moderated c) (cm_moderated_by c) (cm_moderated_at c).
Definition cm_with_is_moderated v c := mkComment (cm_id c) (cm_article c) (cm_author c) (cm_parent c) (cm_content c) (cm_is_approved c) (cm_is_highlighted c) (cm_created_at c) v (cm_moderated_by c) (cm_moderated_at c).
Definition cm_with_moderated_by v c := mkComment (cm_id c) (cm_article c) (cm_author c) (cm_parent c) (cm_content c) (cm_is_approved c) (cm_is_highlighted c) (cm_created_at c) (cm_is_moderated c) v (cm_moderated_at c).
Definition cm_with_moderated_at v c := mkComment (cm_id c) (cm_article c) (cm_author c) (cm_parent c) (cm_content c) (cm_is_approved c) (cm_is_highlighted c) (cm_created_at c) (cm_is_moderated c) (cm_moderated_by c) v.
Definition cm_with_key (i t : Z) c := mkComment i (cm_article c) (cm_author c) (cm_parent c) (cm_content c) (cm_is_approved c) (cm_is_highlighted c) t (cm_is_moderated c) (cm_moderated_by c) (cm_moderated_at c).

(** [CommentForm] and [ReplyForm] have the one field [content]: the
    stripped text must hold no NUL character (the form field) and have at
    least 10 characters (the model's validator). *)
Definition content_is_valid (text : string) : bool :=
  negb (PyStr.has_nul (PyStr.strip text))
  && (10 <=? PyStr.len (PyStr.strip text)).

(** [CommentForm.save(commit=False)] for a logged-in [user]. *)
Definition CommentForm_save (user : Z) (text : string) : Comment :=
  let comment := Comment_new (PyStr.strip text) in
  cm_with_author (Some user) comment.

(** The instance [ReplyForm.save] builds before [reply.save()]:
    [author] and [parent] are assigned, nothing else. *)
Definition ReplyForm_instance (user : Z) (parent : Comment) (text : string) : Comment :=
  let reply := Comment_new (PyStr.strip text) in
  let reply := cm_with_author (Some user) reply in
  cm_with_parent (Some (cm_id parent)) reply.

(** [Comment.save()] of a new instance: an INSERT.  The columns
    [article_id] and [author_id] are NOT NULL. *)
Definition Comment_insert (now : Z) (c : Comment) (s : Store) : Response :=
  match cm_article c, cm_author c with
  | Some _, Some _ =>
      Done (with_comments
              (comments s ++ [cm_with_key (fresh_id (map cm_id (comments s))) now c])%list s)
  | _, _ => IntegrityError
  end.

(** [Comment.save()] of a loaded instance: an UPDATE of its row. *)
Definition Comment_update (c : Comment) (s : Store) : Store :=
  with_comments (map (fun r => if cm_id r =? cm_id c then c else r) (comments s)) s.

(** [add_comment] *)
Definition add_comment (s : Store) (user : Z) (article_slug text : string) (now : Z)
  : Response :=
  match find (fun a => String.eqb (slug a) article_slug && Status_eqb (status a) Published)
             (articles s) with
  | None => Http404
  | Some article =>
      if content_is_valid text then
        let comment := CommentForm_save user text in
        let comment := cm_with_article (Some (a_id article)) comment in
        Comment_insert now comment s
      else Done s
  end.

(** [add_reply] *)
Definition add_reply (s : Store) (user : Z) (comment_id : Z) (text : string) (now : Z)
  : Response :=
  match find (fun c => cm_id c =? comment_id) (comments s) with
  | None => Http404
  | Some parent_comment =>
      if content_is_valid text
      then Comment_insert now (ReplyForm_instance user parent_comment text) s
      else Done s
  end.

(** [admin_comment_reject], called by the staff member [user]. *)
Definition admin_comment_reject (s : Store) (user : Z) (comment_id : Z) (now : Z)
  : Response :=
  match find (fun c => cm_id c =? comment_id) (comments s) with
  | None => Http404
  | Some comment =>
      let comment := cm_with_is_approved false comment in
      let comment := cm_with_is_moderated true comment in
      let comment := cm_with_moderated_by (Some user) comment in
      let comment := cm_with_moderated_at (Some now) comment in
      Done (Comment_update comment s)
  end.

(* ------------------------------------------------------------------ *)
(** ** [admin_views.py]: the bulk actions *)

(** The keys removed by a delete of [ids]: the comments themselves and,
    through [on_delete=CASCADE] on [parent], their replies at any depth. *)
Fixpoint cascade (fuel : nat) (ids : list Z) (cs : list Comment) : list Z :=
  match fuel with
  | O => ids
  | S k =>
      cascade k
        (ids ++ map cm_id
                  (filter (fun c => match cm_parent c with
                                    | Some p => mem p ids && negb (mem (cm_id c) ids)
                                    | None => false
                                    end) cs))%list
        cs
  end.

Definition delete_comments (ids : list Z) (cs : list Comment) : list Comment :=
  let gone := cascade (List.length cs) ids cs in
  filter (fun c => negb (mem (cm_id c) gone)) cs.

(** The columns [publish_articles] writes on a row. *)
Definition published_now (now : Z) (a : Article) : Article :=
  set_published_at (Some now) (set_is_published true (set_status Published a)).

(** [admin_bulk_actions]: one [QuerySet.update] (no [save()] runs) or
    delete per action on [filter(id__in=selected_items)]; any other action
    string changes nothing. *)
Definition admin_bulk_actions (s : Store) (method : Method) (action : string)
    (selected_items : list Z) (user : Z) (now : Z) : Store :=
  match method with
  | GET => s
  | POST =>
      if String.eqb action "publish_articles" then
        with_articles
          (map (fun a => if mem (a_id a) selected_items
                         then published_now now a
                         else a) (articles s)) s
      else if String.eqb action "unpublish_articles" then
        with_articles
          (map (fun a => if mem (a_id a) selected_items
                         then set_is_published false a else a) (articles s)) s
      else if String.eqb action "approve_comments" then
        with_comments
          (map (fun c => if mem (cm_id c) selected_items
                         then cm_with_moderated_at (Some now)
                                (cm_with_moderated_by (Some user)
                                   (cm_with_is_moderated true
                                      (cm_with_is_approved true c)))
                         else c) (comments s)) s
      else if String.eqb action "delete_comments" then
        with_comments (delete_comments selected_items (comments s)) s
      else if String.eqb action "mark_contacts_read" then
        with_contacts
          (map (fun k => if mem (k_id k) selected_items
                         then mkContactMessage (k_id k) (k_name k) (k_email k)
                                (k_subject k) (k_message k) true
                         else k) (contacts s)) s
      else s
  end.

(* ------------------------------------------------------------------ *)
(** ** Newsletter: [NewsletterForm] and [newsletter_subscribe] *)

(** The posted form. *)
Record NewsletterPost := mkNewsletterPost {
  np_email : string;
  np_frequency : string;
  np_categories : list Z
}.

Definition parse_frequency (v : string) : option Frequency :=
  if String.eqb v "daily" then Some Daily
  else if String.eqb v "weekly" then Some Weekly
  else if String.eqb v "monthly" then Some Monthly
  else None.

Definition nl_with_frequency v n := mkNewsletter (n_id n) (n_email n) (n_is_active n) (n_subscribed_at n) (n_unsubscribed_at n) (n_categories n) v.
Definition nl_with_is_active v n := mkNewsletter (n_id n) (n_email n) v (n_subscribed_at n) (n_unsubscribed_at n) (n_categories n) (n_frequency n).
Definition nl_with_categories v n := mkNewsletter (n_id n) (n_email n) (n_is_active n) (n_subscribed_at n) (n_unsubscribed_at n) v (n_frequency n).

Definition replace_newsletter (n : Newsletter) (rows : list Newsletter) : list Newsletter :=
  map (fun r => if n_id r =? n_id n then n else r) rows.

(** [Newsletter.objects.get_or_create(email=..., defaults={'frequency': ...})]:
    the row, whether it was created, and the table. *)
Definition get_or_create (email : string) (frequency : Frequency) (now : Z)
    (rows : list Newsletter) : Newsletter * bool * list Newsletter :=
  match find (fun n => String.eqb (n_email n) email) rows with
  | Some n => (n, false, rows)
  | None =>
      let n := mkNewsletter (fresh_id (map n_id rows)) email true now None [] frequency in
      (n, true, (rows ++ [n])%list)
  end.

(** The body of [newsletter_subscribe] under [if form.is_valid():], on the
    cleaned data. *)
Definition subscribe_cleaned (email : string) (frequency : Frequency)
    (cats : list Z) (now : Z) (rows : list Newsletter) : list Newsletter :=
  let '(newsletter, created, rows) := get_or_create email frequency now rows in
  let '(newsletter, rows) :=
    if negb created then
      let newsletter := nl_with_frequency frequency newsletter in
      let newsletter := nl_with_is_active true newsletter in
      (newsletter, replace_newsletter newsletter rows)
    else (newsletter, rows) in
  replace_newsletter (nl_with_categories cats newsletter) rows.

Section NewsletterForm.

(** Django's [EmailValidator], which decides whether a text is an
    e-mail address. *)
Variable email_valid : string -> bool.

(** [NewsletterForm(request.POST).is_valid()].  The form is a
    [ModelForm] on [Newsletter] built without an instance, and [email],
    one of its fields, is [unique=True] on the model: after the fields are
    cleaned, model-form validation runs the model's uniqueness check
    against the table, and an e-mail that already has a row is an error
    of the form. *)
Definition NewsletterForm_is_valid (s : Store) (p : NewsletterPost) : bool :=
  email_valid (PyStr.strip (np_email p))
  && (PyStr.len (PyStr.strip (np_email p)) <=? 254)
  && match parse_frequency (np_frequency p) with Some _ => true | None => false end
  && forallb (fun i => existsb (fun c => (c_id c =? i) && c_is_active c) (categories s))
             (np_categories p)
  && negb (existsb (fun n => String.eqb (n_email n) (PyStr.strip (np_email p)))
                   (newsletters s)).

(** [newsletter_subscribe] *)
Definition newsletter_subscribe (s : Store) (method : Method) (p : NewsletterPost)
    (now : Z) : Store :=
  match method with
  | GET => s
  | POST =>
      if NewsletterForm_is_valid s p then
        match parse_frequency (np_frequency p) with
        | Some frequency =>
            with_newsletters
              (subscribe_cleaned (PyStr.strip (np_email p)) frequency
                 (np_categories p) now (newsletters s)) s
        | None => s
        end
      else s
  end.

End NewsletterForm.

(* ------------------------------------------------------------------ *)
(** ** [models.py]: the saves of Category and Tag, the replies of a comment *)

Section SlugSaves.

Variable slugify : string -> string.

(** [Category.save] and [Tag.save], up to [super().save]. *)
Definition Category_save (c : Category) : Category :=
  if negb (PyStr.truthy (c_slug c))
  then mkCategory (c_id c) (c_name c) (slugify (c_name c)) (c_is_active c)
  else c.

Definition Tag_save (t : Tag) : Tag :=
  if negb (PyStr.truthy (t_slug t))
  then mkTag (t_id t) (t_name t) (slugify (t_name t))
  else t.

End SlugSaves.

(** A nullable foreign key that points at [i]. *)
Definition opt_is (o : option Z) (i : Z) : bool :=
  match o with Some j => j =? i | None => false end.

Definition is_none (o : option Z) : bool :=
  match o with Some _ => false | None => true end.

(** [order_by('created_at')] and [Comment.Meta.ordering = ['-created_at']] *)
Definition by_created_asc (x y : Comment) : bool := cm_created_at x <=? cm_created_at y.
Definition by_created_desc (x y : Comment) : bool := cm_created_at y <=? cm_created_at x.

(** [Comment.get_replies] *)
Definition get_replies (s : Store) (self : Comment) : list Comment :=
  order_by by_created_asc
    (filter (fun c => opt_is (cm_parent c) (cm_id self) && cm_is_approved c) (comments s)).

(** [Comment.is_reply] *)
Definition is_reply (self : Comment) : bool := negb (is_none (cm_parent self)).

(* ------------------------------------------------------------------ *)
(** ** [views.py]: detail, category and tag pages, the share counter *)

(** The approved top-level comments of an article, as the detail page
    queries them. *)
Definition top_level_comments (s : Store) (article : Article) : list Comment :=
  order_by by_created_desc
    (filter (fun c => opt_is (cm_article c) (a_id article)
                      && cm_is_approved c && is_none (cm_parent c))
       (comments s)).

(** The UPDATE of the row with the key of [row]. *)
Definition store_article (row : Article) (s : Store) : Store :=
  with_articles (map (fun r => if a_id r =? a_id row then row else r) (articles s)) s.

Section PageViews.

Variable slugify : string -> string.


(** The view [increment_share_count] on a POST: the store and the JSON
    answer, [Some share_count] on success, [None] for 'Article not found'. *)
Definition increment_share_count_view (s : Store) (article_slug : string) (now : Z)
  : Store * option Z :=
  match find (fun a => String.eqb (slug a) article_slug) (articles s) with
  | None => (s, None)
  | Some article =>
      let inst := fst (increment_share_count slugify now article) in
      (store_article (snd (increment_share_count slugify now article)) s,
       Some (share_count inst))
  end.

End PageViews.

(** [CategoryDetailView.get_queryset]; [None] is the 404 of
    [get_object_or_404(Category, slug=...)]. *)
Definition CategoryDetailView_get_queryset (s : Store) (sl : string)
  : option (list Article) :=
  match find (fun c => String.eqb (c_slug c) sl) (categories s) with
  | None => None
  | Some c =>
      Some (order_by by_meta_ordering
              (filter (fun a => (category a =? c_id c) && visible a) (articles s)))
  end.

(** [TagDetailView.get_queryset] *)
Definition TagDetailView_get_queryset (s : Store) (sl : string)
  : option (list Article) :=
  match find (fun t => String.eqb (t_slug t) sl) (all_tags s) with
  | None => None
  | Some t =>
      Some (order_by by_meta_ordering
              (filter (fun a => mem (t_id t) (tags a) && visible a) (articles s)))
  end.

(* ------------------------------------------------------------------ *)
(** ** [admin_views.py]: moderation, contacts, counters *)

(** [admin_comment_approve] *)
Definition admin_comment_approve (s : Store) (user : Z) (comment_id : Z) (now : Z)
  : Response :=
  match find (fun c => cm_id c =? comment_id) (comments s) with
  | None => Http404
  | Some comment =>
      let comment := cm_with_is_approved true comment in
      let comment := cm_with_is_moderated true comment in
      let comment := cm_with_moderated_by (Some user) comment in
      let comment := cm_with_moderated_at (Some now) comment in
      Done (Comment_update comment s)
  end.

(** [admin_comment_delete]: the delete happens on POST only. *)
Definition admin_comment_delete (s : Store) (method : Method) (comment_id : Z)
  : Response :=
  match find (fun c => cm_id c =? comment_id) (comments s) with
  | None => Http404
  | Some comment =>
      match method with
      | POST => Done (with_comments (delete_comments [cm_id comment] (comments s)) s)
      | GET => Done s
      end
  end.

Definition mark_read (k : ContactMessage) : ContactMessage :=
  mkContactMessage (k_id k) (k_name k) (k_email k) (k_subject k) (k_message k) true.

(** [admin_contact_mark_read] *)
Definition admin_contact_mark_read (s : Store) (contact_id : Z) : Response :=
  match find (fun k => k_id k =? contact_id) (contacts s) with
  | None => Http404
  | Some contact =>
      Done (with_contacts
              (map (fun r => if k_id r =? k_id contact then mark_read contact else r)
                 (contacts s)) s)
  end.

(** [Sum('view_count')] over a query set, with the [or 0] of the callers. *)
Definition sum_views (l : list Article) : Z :=
  fold_right (fun a acc => view_count a + acc) 0 l.

Definition published_on (d : Z) (a : Article) : bool :=
  match published_at a with Some t => date_of t =? d | None => false end.

(** The counters of [admin_dashboard]. *)
Definition total_articles (s : Store) : nat := List.length (articles s).
Definition published_articles (s : Store) : nat := List.length (filter visible (articles s)).
Definition draft_articles (s : Store) : nat :=
  List.length (filter (fun a => Status_eqb (status a) Draft) (articles s)).
Definition total_comments (s : Store) : nat := List.length (comments s).
Definition pending_comments (s : Store) : nat :=
  List.length (filter (fun c => negb (cm_is_approved c)) (comments s)).
Definition newsletter_subscribers (s : Store) : nat :=
  List.length (filter n_is_active (newsletters s)).
Definition unread_contacts (s : Store) : nat :=
  List.length (filter (fun k => negb (k_is_read k)) (contacts s)).

Definition weekly_views (s : Store) (now : Z) : Z :=
  let today := date_of now in
  let week_ago := today - 7 in
  sum_views (filter (published_date_ge week_ago) (articles s)).

(** [admin_analytics]: the views of one day, and the series of the last
    30 days, today first. *)
Definition views_on (s : Store) (date : Z) : Z :=
  sum_views (filter (fun a => published_on date a && Status_eqb (status a) Published)
               (articles s)).

Definition daily_views (s : Store) (now : Z) : list (Z * Z) :=
  let end_date := date_of now in
  map (fun i => let date := end_date - Z.of_nat i in (date, views_on s date))
      (seq 0 30).

(* ------------------------------------------------------------------ *)
(** ** Notions the properties are stated with *)

(** The moderation fields go together: a comment marked as moderated
    names its moderator and the time. *)
Definition moderation_paired (c : Comment) : bool :=
  implb (cm_is_moderated c)
        (negb (is_none (cm_moderated_by c)) && negb (is_none (cm_moderated_at c))).

(** The keys in the threads below [ids]: the keys themselves and, step by
    step, the replies to a comment whose key is there. *)
Inductive below (ids : list Z) (cs : list Comment) : Z -> Prop :=
| below_root i : In i ids -> below ids cs i
| below_reply c p :
    In c cs -> cm_parent c = Some p -> below ids cs p -> below ids cs (cm_id c).

(** The replies one round of the cascade adds to [ids]. *)
Definition next_round (ids : list Z) (cs : list Comment) : list Comment :=
  filter (fun c => match cm_parent c with
                   | Some p => mem p ids && negb (mem (cm_id c) ids)
                   | None => false
                   end) cs.

(** The publication days a 30-day series ending at [now] covers. *)
Definition in_series_window (now : Z) (a : Article) : bool :=
  match published_at a with
  | Some t => (date_of now - 29 <=? date_of t) && (date_of t <=? date_of now)
  | None => false
  end.

(* ------------------------------------------------------------------ *)
(** ** Sample data *)

Module Sample.

(** A slug function for the samples, whose articles all have a slug. *)
Definition slugify (t : string) : string := t.

Definition body : string :=
  "The council approved the new budget for the city library on Monday.".

(** A draft as [ArticleForm] leaves it before the first save. *)
Definition draft : Article :=
  mkArticle 1 "A Sufficiently Long Title Here" "a-sufficiently-long-title-here"
    body "" 7 1 [] Draft Normal false 10 None "" "" 0 0 0.

(** A published article, saved at time 100. *)
Definition live : Article :=
  mkArticle 2 "Library budget approved" "library-budget-approved"
    body body 7 1 [] Published Normal true 20 (Some 100) body "" 3 0 1.



Definition news : Category := mkCategory 1 "News" "news" true.

(** An edit through [ArticleForm] that moves the status. *)
Definition edit_status (st : Status) : ArticleFormData :=
  mkArticleFormData "Library budget approved" body body 1 [] st body "".

Definition store : Store := mkStore [draft; live] [news] [] [] [] [].

(** [store] after both articles were published together at time 900. *)
Definition relaunched : Store :=
  admin_bulk_actions store POST "publish_articles" [1; 2] 7 900.

(** A request of the article list without any filter. *)
Definition no_filter : ListParams := mkListParams None None None None None.

(** A comment on [live], and the store that holds it. *)
Definition top : Comment :=
  mkComment 1 (Some 2) (Some 8) None "A first comment here" true false 30 false None None.

Definition thread : Store := mkStore [draft; live] [news] [] [top] [] [].

Definition reply_text : string := "I agree with this point".

(** A subscriber who left, and the form that subscribes the same
    address again with another frequency and a category. *)
Definition lapsed : Newsletter :=
  mkNewsletter 1 "reader@example.org" false 5 (Some 9) [] Weekly.

Definition readers : Store := mkStore [] [news] [] [] [lapsed] [].

Definition again : NewsletterPost :=
  mkNewsletterPost "reader@example.org" "daily" [1].

Definition newcomer : NewsletterPost :=
  mkNewsletterPost "other@example.org" "monthly" [1].

(** A breaking story, and the store of a front page. *)
Definition breaking : Article :=
mkArticle 3 "Bridge closed after storm" "bridge-closed-after-storm"
  body body 7 1 [] Published Breaking true 30 (Some 120) body "" 40 2 1.

Definition front : Store := mkStore [draft; live; breaking] [news] [] [] [] [].

(** A thread: a comment, a reply to it, a reply to the reply, and a
    comment apart. *)
Definition reply1 : Comment :=
mkComment 2 (Some 2) (Some 7) (Some 1) "A reply to the first" true false 40 false None None.

Definition reply2 : Comment :=
mkComment 3 (Some 2) (Some 8) (Some 2) "A reply to the reply" true false 50 false None None.

Definition apart : Comment :=
mkComment 4 (Some 2) (Some 7) None "Another comment here" true false 60 false None None.

Definition threads : Store :=
mkStore [draft; live] [news] [] [top; reply1; reply2; apart] []
  [mkContactMessage 1 "Ann" "ann@example.org" "Hello" "A question" false].

(** [threads] after moderator 9 rejected the first comment at time 70. *)
Definition moderated : Store :=
with_comments
  [mkComment 1 (Some 2) (Some 8) None "A first comment here" false false 30 true
     (Some 9) (Some 70);
   reply1; reply2; apart] threads.

(** The keys of the user table, and the admin change form of [live] with
    the publication time cleared and every other field as stored. *)
Definition users : list Z := [7; 8; 9].


(** The same form with a title too short to be valid. *)
Definition clear_with_short_title : ArticleAdminData :=
mkArticleAdminData "Short" (slug live) (content live)
  (excerpt live) (author live) (category live) (tags live)
  (status live) (featured live) (is_published live) None
  (meta_description live) (meta_keywords live).

(** A comment text of 18 characters with a NUL character after Hello. *)
Definition text_with_nul : string :=
String.append "Hello" (String (ascii_of_nat 0) " world, nice").

(** An edit through [ArticleForm] that changes the title. *)
Definition retitled : ArticleFormData :=
mkArticleFormData "Library budget rejected" body body 1 [] Published body "".

End Sample.

(* ================================================================== *)
(** * Properties *)

(* ------------------------------------------------------------------ *)
(** ** Words of a text *)

Lemma truthy_snoc (cur : string) (c : ascii) :
  PyStr.truthy (cur ++ String c EmptyString) = true.
Proof. destruct cur; reflexivity. Qed.

(** [split] yields one string per word start, whatever run is being read. *)
Lemma split_from_length (s cur : string) :
  List.length (PyStr.split_from cur s)
  = ((if PyStr.truthy cur then 1 else 0)
     + PyStr.word_starts (negb (PyStr.truthy cur)) s)%nat.
Proof.
  revert cur; induction s as [|c r IH]; intro cur; simpl.
  - destruct (PyStr.truthy cur); reflexivity.
  - destruct (PyStr.isspace c).
    + destruct (PyStr.truthy cur); simpl; rewrite (IH EmptyString); reflexivity.
    + rewrite IH, truthy_snoc. simpl.
      destruct (PyStr.truthy cur); simpl; lia.
Qed.

Lemma len_split (s : string) :
  Z.of_nat (List.length (PyStr.split s)) = PyStr.wordCount s.
Proof.
  unfold PyStr.split, PyStr.wordCount.
  rewrite split_from_length. reflexivity.
Qed.

(* ------------------------------------------------------------------ *)
(** ** The save pipeline, field by field *)

Section SaveFacts.

Variable slugify : string -> string.

(** Each stage writes one field (the last writes two) and leaves the
    others as they were. *)
Lemma slug_stage_keeps a :
  let b := derive_slug slugify a in
  a_id b = a_id a /\ content b = content a /\ excerpt b = excerpt a
  /\ meta_description b = meta_description a /\ status b = status a
  /\ published_at b = published_at a /\ is_published b = is_published a.
Proof. unfold derive_slug; destruct (negb _); repeat split; reflexivity. Qed.

Lemma excerpt_stage_keeps a :
  let b := derive_excerpt a in
  a_id b = a_id a /\ content b = content a /\ status b = status a
  /\ published_at b = published_at a /\ is_published b = is_published a.
Proof. unfold derive_excerpt; destruct (_ && _); repeat split; reflexivity. Qed.

Lemma meta_stage_keeps a :
  let b := derive_meta_description a in
  a_id b = a_id a /\ content b = content a /\ excerpt b = excerpt a
  /\ status b = status a
  /\ published_at b = published_at a /\ is_published b = is_published a.
Proof. unfold derive_meta_description; destruct (_ && _); repeat split; reflexivity. Qed.

Lemma reading_stage_keeps a :
  let b := derive_reading_time a in
  a_id b = a_id a /\ content b = content a /\ excerpt b = excerpt a
  /\ status b = status a
  /\ published_at b = published_at a /\ is_published b = is_published a.
Proof. unfold derive_reading_time; repeat split; reflexivity. Qed.

Lemma published_stage_keeps now a :
  let b := derive_published now a in
  a_id b = a_id a /\ content b = content a /\ excerpt b = excerpt a
  /\ status b = status a /\ reading_time b = reading_time a.
Proof. unfold derive_published; destruct (_ && _); repeat split; reflexivity. Qed.

Lemma derived_keeps a :
  a_id (derived slugify a) = a_id a /\ content (derived slugify a) = content a
  /\ status (derived slugify a) = status a
  /\ published_at (derived slugify a) = published_at a
  /\ is_published (derived slugify a) = is_published a.
Proof.
  unfold derived.
  destruct (reading_stage_keeps
              (derive_meta_description (derive_excerpt (derive_slug slugify a))))
    as (r1 & r2 & _ & r3 & r4 & r5).
  destruct (meta_stage_keeps (derive_excerpt (derive_slug slugify a)))
    as (m1 & m2 & _ & m3 & m4 & m5).
  destruct (excerpt_stage_keeps (derive_slug slugify a)) as (e1 & e2 & e3 & e4 & e5).
  destruct (slug_stage_keeps a) as (s1 & s2 & _ & _ & s3 & s4 & s5).
  cbv zeta in *.
  repeat split; congruence.
Qed.

Lemma save_unfold now a :
  Article_save slugify now a = derive_published now (derived slugify a).
Proof. reflexivity. Qed.

Lemma save_status now a : status (Article_save slugify now a) = status a.
Proof.
  rewrite save_unfold.
  destruct (published_stage_keeps now (derived slugify a)) as (_ & _ & _ & h & _).
  destruct (derived_keeps a) as (_ & _ & k & _). cbv zeta in h. congruence.
Qed.

Lemma save_content now a : content (Article_save slugify now a) = content a.
Proof.
  rewrite save_unfold.
  destruct (published_stage_keeps now (derived slugify a)) as (_ & h & _).
  destruct (derived_keeps a) as (_ & k & _). cbv zeta in h. congruence.
Qed.


Lemma save_published_at now a :
  published_at (Article_save slugify now a)
  = if Status_eqb (status a) Published && negb (datetime_truthy (published_at a))
    then Some now else published_at a.
Proof.
  rewrite save_unfold. unfold derive_published.
  destruct (derived_keeps a) as (_ & _ & k1 & k2 & _). rewrite k1, k2.
  destruct (_ && _); [reflexivity | exact k2].
Qed.


Lemma save_reading_time now a :
  reading_time (Article_save slugify now a)
  = Z.max 1 (Z.of_nat (List.length (PyStr.split (content a))) / 200).
Proof.
  rewrite save_unfold.
  destruct (published_stage_keeps now (derived slugify a)) as (_ & _ & _ & _ & h).
  cbv zeta in h. rewrite h. unfold derived, derive_reading_time.
  change (reading_time (set_reading_time ?v _)) with v.
  destruct (meta_stage_keeps (derive_excerpt (derive_slug slugify a))) as (_ & m & _).
  destruct (excerpt_stage_keeps (derive_slug slugify a)) as (_ & e & _).
  destruct (slug_stage_keeps a) as (_ & s & _).
  cbv zeta in *. rewrite m, e, s. reflexivity.
Qed.

Lemma save_excerpt now a :
  excerpt (Article_save slugify now a)
  = if negb (PyStr.truthy (excerpt a)) && PyStr.truthy (content a)
    then (if PyStr.len (content a) >? 200
          then PyStr.take 200 (content a) ++ "..."
          else content a)%string
    else excerpt a.
Proof.
  rewrite save_unfold.
  destruct (published_stage_keeps now (derived slugify a)) as (_ & _ & h & _).
  cbv zeta in h. rewrite h. unfold derived.
  destruct (reading_stage_keeps
              (derive_meta_description (derive_excerpt (derive_slug slugify a))))
    as (_ & _ & r & _).
  destruct (meta_stage_keeps (derive_excerpt (derive_slug slugify a))) as (_ & _ & m & _).
  destruct (slug_stage_keeps a) as (_ & s1 & s2 & _).
  cbv zeta in *. rewrite r, m. unfold derive_excerpt. rewrite s1, s2.
  destruct (_ && _); [reflexivity | exact s2].
Qed.

End SaveFacts.

(* ------------------------------------------------------------------ *)
(** ** More on the save pipeline *)

Ltac innermost_if :=
  match goal with
  | |- context [if ?c then _ else _] =>
      lazymatch c with
      | context [if _ then _ else _] => fail
      | _ => destruct c eqn:?
      end
  end.

Ltac article_fields :=
  cbn [a_id title slug content excerpt author category tags status featured
       is_published created_at published_at meta_description meta_keywords
       view_count share_count reading_time
       set_slug set_excerpt set_meta_description set_reading_time set_status
       set_is_published set_published_at set_view_count set_share_count
       negb andb] in *.

Ltac save_cases :=
  unfold Article_save, derive_published, derive_reading_time,
    derive_meta_description, derive_excerpt, derive_slug;
  repeat (innermost_if; article_fields).

Section SaveMore.

Variable slugify : string -> string.

Lemma save_slug now a :
  slug (Article_save slugify now a)
  = if PyStr.truthy (slug a) then slug a else slugify (title a).
Proof. save_cases; try reflexivity; try discriminate. Qed.

Lemma save_title now a : title (Article_save slugify now a) = title a.
Proof. save_cases; reflexivity. Qed.

Lemma save_meta_description now a :
  meta_description (Article_save slugify now a)
  = if negb (PyStr.truthy (meta_description a))
       && PyStr.truthy (excerpt (Article_save slugify now a))
    then PyStr.take 160 (excerpt (Article_save slugify now a))
    else meta_description a.
Proof. save_cases; try reflexivity; try discriminate; try congruence. Qed.

Lemma save_view_count now a :
  view_count (Article_save slugify now a) = view_count a
  /\ share_count (Article_save slugify now a) = share_count a.
Proof. save_cases; split; reflexivity. Qed.



(** A second save finds nothing left to derive. *)
Lemma save_fixed now b :
  (PyStr.truthy (slug b) = true \/ slugify (title b) = slug b) ->
  negb (PyStr.truthy (excerpt b)) && PyStr.truthy (content b) = false ->
  negb (PyStr.truthy (meta_description b)) && PyStr.truthy (excerpt b) = false ->
  reading_time b = Z.max 1 (Z.of_nat (List.length (PyStr.split (content b))) / 200) ->
  Status_eqb (status b) Published && negb (datetime_truthy (published_at b)) = false ->
  Article_save slugify now b = b.
Proof.
  intros Hs He Hm Hr Hp. destruct b. article_fields.
  unfold Article_save.
  assert (E1 : derive_slug slugify
                 (mkArticle a_id0 title0 slug0 content0 excerpt0 author0 category0
                    tags0 status0 featured0 is_published0 created_at0 published_at0
                    meta_description0 meta_keywords0 view_count0 share_count0
                    reading_time0)
               = mkArticle a_id0 title0 slug0 content0 excerpt0 author0 category0
                   tags0 status0 featured0 is_published0 created_at0 published_at0
                   meta_description0 meta_keywords0 view_count0 share_count0
                   reading_time0).
  { unfold derive_slug. article_fields.
    destruct Hs as [Hs|Hs]; rewrite Hs; [reflexivity|].
    destruct (negb (PyStr.truthy slug0)); reflexivity. }
  rewrite E1. unfold derive_excerpt. article_fields. rewrite He.
  unfold derive_meta_description. article_fields. rewrite Hm.
  unfold derive_reading_time. article_fields. rewrite <- Hr.
  unfold derive_published. article_fields. rewrite Hp. reflexivity.
Qed.

Lemma truthy_take n s :
  PyStr.truthy (PyStr.take (S n) s) = PyStr.truthy s.
Proof. destruct s; reflexivity. Qed.

Lemma truthy_append_dots s : PyStr.truthy (s ++ "...") = true.
Proof. destruct s; reflexivity. Qed.

Lemma save_excerpt_settled now a :
  negb (PyStr.truthy (excerpt (Article_save slugify now a)))
  && PyStr.truthy (content (Article_save slugify now a)) = false.
Proof.
  rewrite save_excerpt, save_content.
  destruct (negb (PyStr.truthy (excerpt a)) && PyStr.truthy (content a)) eqn:C;
    [|exact C].
  apply andb_true_iff in C as [_ C].
  destruct (PyStr.len (content a) >? 200).
  - rewrite truthy_append_dots. reflexivity.
  - rewrite C. reflexivity.
Qed.

Lemma save_meta_settled now a :
  negb (PyStr.truthy (meta_description (Article_save slugify now a)))
  && PyStr.truthy (excerpt (Article_save slugify now a)) = false.
Proof.
  rewrite save_meta_description.
  destruct (negb (PyStr.truthy (meta_description a))
            && PyStr.truthy (excerpt (Article_save slugify now a))) eqn:C; [|exact C].
  apply andb_true_iff in C as [_ C].
  change 160%nat with (S 159). rewrite truthy_take, C. reflexivity.
Qed.

End SaveMore.

(* ------------------------------------------------------------------ *)
(** ** The admin's change form *)

Section AdminForm.

Variable slugify : string -> string.




End AdminForm.

(* ------------------------------------------------------------------ *)
(** ** Per-article requests keep what the save rule keeps *)

Section Requests.

Variable slugify : string -> string.

(** A form save leaves the row as it was or stores the saved instance. *)
Lemma form_save_cases s now d row :
  ArticleForm_save slugify s now d row = row
  \/ ArticleForm_save slugify s now d row
     = Article_save slugify now (ArticleForm_apply d row).
Proof.
  unfold ArticleForm_save. destruct (ArticleForm_is_valid s d); [|left; reflexivity].
  cbv zeta. destruct (slug_taken _ _ _); [left | right]; reflexivity.
Qed.



(** X27. The stored reading time follows the stored content through every
    request: a form save recomputes it, a count leaves both columns. *)
Lemma run_keeps_reading_time s os : forall row,
  reading_time row = Z.max 1 (PyStr.wordCount (content row) / 200) ->
  reading_time (run slugify s row os)
  = Z.max 1 (PyStr.wordCount (content (run slugify s row os)) / 200).
Proof.
  induction os as [|o os IH]; intros row H; [exact H|].
  unfold run; cbn [fold_left]. fold (run slugify s (step slugify s row o) os).
  apply IH. destruct o as [now [d| |]]; unfold step; cbn [fst snd].
  - destruct (form_save_cases s now d row) as [E|E]; rewrite E; [exact H|].
    rewrite save_reading_time, save_content, len_split. reflexivity.
  - exact H.
  - exact H.
Qed.

End Requests.

(* ------------------------------------------------------------------ *)
(** ** Reading time and excerpt *)

(** C6. After every save the reading time of the article is
    [max(1, wordCount(content) // 200)], where [wordCount] counts the
    whitespace-separated words of the content as it is after the save,
    which is the number of pieces [content.split()] returns; the value the
    field had before the save plays no part. *)
Theorem reading_time_recomputed_on_save :
  forall (slugify : string -> string) (now : Z) (a : Article),
    let b := Article_save slugify now a in
    reading_time b = Z.max 1 (PyStr.wordCount (content b) / 200)
    /\ PyStr.wordCount (content b) = Z.of_nat (List.length (PyStr.split (content b)))
    /\ 1 <= reading_time b.
Proof.
  intros slugify now a b. subst b.
  rewrite save_reading_time, save_content, len_split.
  repeat split; lia.
Qed.

Example reading_time_of_sample :
  reading_time (Article_save Sample.slugify 50 Sample.draft) = 1
  /\ PyStr.wordCount Sample.body = 12.
Proof. split; vm_compute; reflexivity. Qed.

(** C9, as the spec states it, fails: a blank excerpt over a content of at
    most 200 characters is filled with the content alone, without the
    ellipsis. *)
Lemma short_content_gets_no_ellipsis :
  excerpt Sample.draft = ""
  /\ PyStr.truthy (content Sample.draft) = true
  /\ excerpt (Article_save Sample.slugify 50 Sample.draft) = content Sample.draft
  /\ excerpt (Article_save Sample.slugify 50 Sample.draft)
     <> (PyStr.take 200 (content Sample.draft) ++ "...")%string.
Proof.
  repeat split; try reflexivity.
  vm_compute. discriminate.
Qed.

(** C9, amended. A save of an article with a blank excerpt and a non-empty
    content fills the excerpt with the first 200 characters of the content
    followed by ["..."] when the content has more than 200 characters, and
    with the content itself otherwise. *)
Theorem blank_excerpt_filled_on_save :
  forall (slugify : string -> string) (now : Z) (a : Article),
    PyStr.truthy (excerpt a) = false ->
    PyStr.truthy (content a) = true ->
    excerpt (Article_save slugify now a)
    = if 200 <? PyStr.len (content a)
      then (PyStr.take 200 (content a) ++ "...")%string
      else content a.
Proof.
  intros slugify now a He Hc.
  rewrite save_excerpt, He, Hc. cbn [negb andb].
  rewrite Z.gtb_ltb. reflexivity.
Qed.

Lemma blank_excerpt_filled_on_save_witness :
  excerpt (Article_save Sample.slugify 50 Sample.draft)
  = if 200 <? PyStr.len (content Sample.draft)
    then (PyStr.take 200 (content Sample.draft) ++ "...")%string
    else content Sample.draft.
Proof.
  apply (blank_excerpt_filled_on_save Sample.slugify 50 Sample.draft); reflexivity.
Defined.

(* ------------------------------------------------------------------ *)
(** ** Publication time *)




Example toggled_status_is_saved :
  status (run Sample.slugify Sample.store Sample.live
            [(200, OpFormSave (Sample.edit_status Archived))]) = Archived.
Proof. vm_compute. reflexivity. Qed.

(* ------------------------------------------------------------------ *)
(** ** Bulk publication *)

Lemma bulk_publish_articles s ids user now :
  articles (admin_bulk_actions s POST "publish_articles" ids user now)
  = map (fun a => if mem (a_id a) ids then published_now now a else a) (articles s).
Proof. reflexivity. Qed.

(** C3. The bulk action [publish_articles] gives every target article the
    status [published], the flag [is_published] and the call time as
    [published_at], whatever publication time it had; the other articles,
    and the keys of the table, are as before. *)
Theorem bulk_publish_overwrites :
  forall (s : Store) (ids : list Z) (user now : Z),
    let s' := admin_bulk_actions s POST "publish_articles" ids user now in
    map a_id (articles s') = map a_id (articles s)
    /\ (forall a', In a' (articles s') -> mem (a_id a') ids = true ->
          status a' = Published /\ is_published a' = true
          /\ published_at a' = Some now)
    /\ (forall a, In a (articles s) -> mem (a_id a) ids = true ->
          In (published_now now a) (articles s'))
    /\ (forall a, In a (articles s) -> mem (a_id a) ids = false ->
          In a (articles s')).
Proof.
  intros s ids user now s'. subst s'. rewrite bulk_publish_articles.
  repeat split.
  - rewrite map_map. apply map_ext. intro a.
    destruct (mem (a_id a) ids); reflexivity.
  - apply in_map_iff in H as (a & E & _). subst a'.
    destruct (mem (a_id a) ids) eqn:M; [reflexivity | congruence].
  - apply in_map_iff in H as (a & E & _). subst a'.
    destruct (mem (a_id a) ids) eqn:M; [reflexivity | congruence].
  - apply in_map_iff in H as (a & E & _). subst a'.
    destruct (mem (a_id a) ids) eqn:M; [reflexivity | congruence].
  - intros a Ha M. apply in_map_iff. exists a. rewrite M. auto.
  - intros a Ha M. apply in_map_iff. exists a. rewrite M. auto.
Qed.

(** The example of the spec: a draft without publication time and an
    article published at time 100 are both published at time 900. *)
Lemma bulk_publish_overwrites_witness :
  In (published_now 900 Sample.draft)
     (articles (admin_bulk_actions Sample.store POST "publish_articles" [1; 2] 7 900))
  /\ In (published_now 900 Sample.live)
        (articles (admin_bulk_actions Sample.store POST "publish_articles" [1; 2] 7 900))
  /\ published_at (published_now 900 Sample.live) = Some 900
  /\ published_at Sample.live = Some 100.
Proof.
  pose proof (bulk_publish_overwrites Sample.store [1; 2] 7 900) as (_ & _ & H & _).
  repeat split.
  - apply H; [simpl; auto | reflexivity].
  - apply H; [simpl; auto | reflexivity].
Defined.

(* ------------------------------------------------------------------ *)
(** ** Articles withdrawn by the bulk action [unpublish_articles] *)

Lemma bulk_unpublish_articles s ids user now :
  articles (admin_bulk_actions s POST "unpublish_articles" ids user now)
  = map (fun a => if mem (a_id a) ids then set_is_published false a else a) (articles s).
Proof. reflexivity. Qed.



(** The admin form with a title too short to be valid changes nothing. *)
Example invalid_admin_form_writes_nothing :
  ArticleAdmin_save_model Sample.slugify Sample.users Sample.store 200
    Sample.clear_with_short_title Sample.live = Sample.live.
Proof. reflexivity. Qed.


(* ------------------------------------------------------------------ *)
(** ** Query sets keep to their rows *)

Section OrderByFacts.
Context {A : Type} (before : A -> A -> bool).

Lemma in_insert_row x y l : In x (insert_row before y l) <-> x = y \/ In x l.
Proof.
  induction l as [|z l IH]; simpl.
  - intuition.
  - destruct (before y z); simpl; [intuition | rewrite IH; intuition].
Qed.

Lemma in_order_by x l : In x (order_by before l) <-> In x l.
Proof.
  induction l as [|y l IH]; simpl; [tauto|].
  rewrite in_insert_row, IH. intuition.
Qed.

(** With a total test, [order_by] returns a sorted sequence. *)
Hypothesis total : forall x y, before x y = false -> before y x = true.

Lemma insert_row_sorted x l :
  Sorted (fun u v => before u v = true) l ->
  Sorted (fun u v => before u v = true) (insert_row before x l).
Proof.
  induction 1 as [|y l Hs IH Hd]; simpl.
  - repeat constructor.
  - destruct (before x y) eqn:E.
    + constructor; [constructor; assumption | constructor; exact E].
    + constructor; [exact IH|].
      destruct l as [|z l]; simpl.
      * constructor. apply total, E.
      * destruct (before x z); constructor.
        -- apply total, E.
        -- inversion Hd; assumption.
Qed.

Lemma order_by_sorted l : Sorted (fun u v => before u v = true) (order_by before l).
Proof.
  induction l as [|x l IH]; simpl; [constructor | apply insert_row_sorted, IH].
Qed.

End OrderByFacts.

Lemma in_distinct_from x l : forall seen, In x (distinct_from seen l) -> In x l.
Proof.
  induction l as [|y l IH]; intros seen H; simpl in *; [assumption|].
  destruct (mem (a_id y) seen).
  - right. eapply IH, H.
  - destruct H as [H|H]; [left; exact H | right; eapply IH, H].
Qed.

Lemma in_firstn {A} (x : A) n : forall l, In x (firstn n l) -> In x l.
Proof.
  induction n as [|n IH]; intros [|y l] H; simpl in *; try tauto.
  destruct H; [left; assumption | right; apply IH; assumption].
Qed.

Lemma by_published_desc_total x y :
  by_published_desc x y = false -> by_published_desc y x = true.
Proof.
  unfold by_published_desc, opt_leb.
  destruct (published_at x), (published_at y); try congruence; auto.
  rewrite Z.leb_gt, Z.leb_le. lia.
Qed.

(** The rows of the article list come from the visible rows of the table. *)
Lemma list_rows_are_visible s p a :
  In a (ArticleListView_get_queryset s p) -> In a (filter visible (articles s)).
Proof.
  unfold ArticleListView_get_queryset. intro H.
  apply in_order_by in H.
  destruct (p_date_to p); [apply filter_In in H as [H _]|];
    (destruct (p_date_from p); [apply filter_In in H as [H _]|]);
    unfold when_ in H;
    (destruct (given (p_tag p)); [apply filter_In in H as [H _]|]);
    (destruct (given (p_category p)); [apply filter_In in H as [H _]|]);
    (destruct (given (p_q p));
     [apply in_distinct_from in H; apply filter_In in H as [H _]|]);
    exact H.
Qed.

(** X25. The four listings that carry the visibility filter return visible
    articles only. *)
Lemma filtered_listings_only_visible s :
  (forall p a, In a (ArticleListView_get_queryset s p) -> visible a = true)
  /\ (forall sl a, ArticleDetailView_get_object s sl = Some a -> visible a = true)
  /\ (forall a, In a (featured_articles s) -> visible a = true)
  /\ (forall now a, In a (trending_articles s now) -> visible a = true).
Proof.
  repeat split.
  - intros p a H. apply list_rows_are_visible, filter_In in H. tauto.
  - intros sl a H. apply find_some in H as [H _]. apply filter_In in H. tauto.
  - intros a H. apply in_firstn, in_order_by, filter_In in H as [_ H].
    apply andb_true_iff in H. tauto.
  - intros now a H. apply in_firstn, in_order_by, filter_In in H as [_ H].
    apply andb_true_iff in H. tauto.
Qed.

(** X26. The article list is ordered by publication time, newest first,
    under every combination of filters. *)
Lemma list_sorted_by_publication s p :
  Sorted (fun x y => opt_leb (published_at y) (published_at x) = true)
         (ArticleListView_get_queryset s p).
Proof.
  unfold ArticleListView_get_queryset.
  apply (order_by_sorted by_published_desc by_published_desc_total).
Qed.

(* ------------------------------------------------------------------ *)
(** ** Related articles and the order of the list *)

(** C1. [get_related_articles] filters on category and tags only: on the
    detail page of the visible article [live], the related articles are
    the draft of the same category, which is not visible.  The other four
    listings carry the filter ([filtered_listings_only_visible]). *)
Theorem related_articles_include_a_draft :
  ArticleDetailView_get_object Sample.store "library-budget-approved" = Some Sample.live
  /\ get_related_articles Sample.store Sample.live 4 = [Sample.draft]
  /\ status Sample.draft = Draft
  /\ is_published Sample.draft = false
  /\ visible Sample.draft = false.
Proof. repeat split. Qed.

(** Rows that an ordering does not tell apart come back as the store
    produced them. *)
Lemma order_by_ties_keep_store_order {A} (before : A -> A -> bool) (l : list A) :
  (forall x y, In x l -> In y l -> before x y = true) ->
  order_by before l = l.
Proof.
  induction l as [|x l IH]; intro H; [reflexivity|].
  cbn [order_by fold_right]. fold (order_by before l).
  rewrite IH by (intros; apply H; right; assumption).
  destruct l as [|y r]; [reflexivity|].
  cbn [insert_row]. rewrite H; [reflexivity | left; reflexivity | right; left; reflexivity].
Qed.

(** C8. The list is ordered by [order_by('-published_at')] alone: two
    articles published by one bulk action have the same publication time,
    and the list returns them as the store produced them, here the one
    created at time 10 before the one created at time 20.  The home page,
    which keeps the ordering declared on the model, lists the later one
    first. *)
Theorem list_ties_not_broken_by_creation :
  let l := ArticleListView_get_queryset Sample.relaunched Sample.no_filter in
  map a_id l = [1; 2]
  /\ map published_at l = [Some 900; Some 900]
  /\ map created_at l = [10; 20]
  /\ map a_id (HomeView_get_queryset Sample.relaunched) = [2; 1].
Proof. repeat split. Qed.

(* ------------------------------------------------------------------ *)
(** ** Comments and replies *)

(** A valid reply to an existing comment is refused by the store, and the
    instance it was built from has no article. *)
Lemma add_reply_valid s user comment_id text now parent :
  find (fun c => cm_id c =? comment_id) (comments s) = Some parent ->
  content_is_valid text = true ->
  add_reply s user comment_id text now = IntegrityError
  /\ cm_article (ReplyForm_instance user parent text) = None.
Proof.
  intros Hf Hv. unfold add_reply. rewrite Hf, Hv. split; reflexivity.
Qed.

(** No call of [add_reply] changes the store. *)
Lemma add_reply_stores_nothing s user comment_id text now s' :
  add_reply s user comment_id text now = Done s' -> s' = s.
Proof.
  unfold add_reply.
  destruct (find _ (comments s)) as [parent|]; [|discriminate].
  destruct (content_is_valid text); [discriminate|].
  intro H; injection H; auto.
Qed.

(** C4. [ReplyForm.save] assigns the author and the parent of the reply
    and never its article: for the valid reply of the sample the instance
    has no article while its parent is on article 2, the insert is
    refused and no reply is stored; [add_comment], with the same text,
    assigns the article and stores the comment. *)
Theorem reply_is_built_without_article :
  content_is_valid Sample.reply_text = true
  /\ find (fun c => cm_id c =? 1) (comments Sample.thread) = Some Sample.top
  /\ cm_article Sample.top = Some 2
  /\ cm_article (ReplyForm_instance 7 Sample.top Sample.reply_text) = None
  /\ cm_parent (ReplyForm_instance 7 Sample.top Sample.reply_text) = Some 1
  /\ add_reply Sample.thread 7 1 Sample.reply_text 60 = IntegrityError
  /\ add_comment Sample.thread 7 "library-budget-approved" Sample.reply_text 60
     = Done (with_comments
               [Sample.top;
                mkComment 2 (Some 2) (Some 7) None Sample.reply_text
                  true false 60 false None None]
               Sample.thread).
Proof. repeat split. Qed.

Lemma find_id_some (cs : list Comment) i c :
  find (fun c => cm_id c =? i) cs = Some c -> In c cs /\ cm_id c = i.
Proof.
  intro H. apply find_some in H as [H1 H2]. split; [assumption | lia].
Qed.

(** C5. A comment made without an approval value is approved and not
    moderated: this holds of a fresh instance and of the row [add_comment]
    stores for a valid text on a published article.  Rejecting an existing
    comment as moderator [m] answers with a store in which the comment has
    [is_approved] false, [is_moderated] true, [moderated_by] [m] and
    [moderated_at] the call time, all written by the one update. *)
Theorem comment_defaults_and_reject :
  (forall text,
      cm_is_approved (Comment_new text) = true
      /\ cm_is_moderated (Comment_new text) = false)
  /\ (forall s user article_slug text now article,
        find (fun a => String.eqb (slug a) article_slug
                       && Status_eqb (status a) Published) (articles s)
        = Some article ->
        content_is_valid text = true ->
        exists c,
          add_comment s user article_slug text now
          = Done (with_comments (comments s ++ [c]) s)
          /\ cm_article c = Some (a_id article)
          /\ cm_is_approved c = true /\ cm_is_moderated c = false
          /\ cm_moderated_by c = None /\ cm_moderated_at c = None)
  /\ (forall s m comment_id now c,
        find (fun c => cm_id c =? comment_id) (comments s) = Some c ->
        exists s',
          admin_comment_reject s m comment_id now = Done s'
          /\ (exists c', In c' (comments s') /\ cm_id c' = comment_id)
          /\ (forall c', In c' (comments s') -> cm_id c' = comment_id ->
                cm_is_approved c' = false /\ cm_is_moderated c' = true
                /\ cm_moderated_by c' = Some m /\ cm_moderated_at c' = Some now)
          /\ (forall c', In c' (comments s) -> cm_id c' <> comment_id ->
                In c' (comments s'))).
Proof.
  split; [|split].
  - intro text. split; reflexivity.
  - intros s user article_slug text now article Hf Hv.
    unfold add_comment. rewrite Hf, Hv.
    eexists. repeat split.
  - intros s m comment_id now c Hf.
    unfold admin_comment_reject. rewrite Hf.
    apply find_id_some in Hf as [Hin Hid].
    eexists. split; [reflexivity|]. cbn [comments Comment_update with_comments].
    repeat split.
    + eexists. split.
      * apply in_map_iff. exists c. split; [|exact Hin].
        cbn [cm_id cm_with_moderated_at cm_with_moderated_by
               cm_with_is_moderated cm_with_is_approved].
        rewrite Z.eqb_refl. reflexivity.
      * exact Hid.
    + apply in_map_iff in H as (r & E & _). cbn [cm_id cm_with_moderated_at
        cm_with_moderated_by cm_with_is_moderated cm_with_is_approved] in E.
      destruct (cm_id r =? cm_id c) eqn:Q; subst c'; [reflexivity|].
      apply Z.eqb_neq in Q. congruence.
    + apply in_map_iff in H as (r & E & _). cbn [cm_id cm_with_moderated_at
        cm_with_moderated_by cm_with_is_moderated cm_with_is_approved] in E.
      destruct (cm_id r =? cm_id c) eqn:Q; subst c'; [reflexivity|].
      apply Z.eqb_neq in Q. congruence.
    + apply in_map_iff in H as (r & E & _). cbn [cm_id cm_with_moderated_at
        cm_with_moderated_by cm_with_is_moderated cm_with_is_approved] in E.
      destruct (cm_id r =? cm_id c) eqn:Q; subst c'; [reflexivity|].
      apply Z.eqb_neq in Q. congruence.
    + apply in_map_iff in H as (r & E & _). cbn [cm_id cm_with_moderated_at
        cm_with_moderated_by cm_with_is_moderated cm_with_is_approved] in E.
      destruct (cm_id r =? cm_id c) eqn:Q; subst c'; [reflexivity|].
      apply Z.eqb_neq in Q. congruence.
    + intros c' Hc' Hne. apply in_map_iff. exists c'. split; [|exact Hc'].
      cbn [cm_id cm_with_moderated_at cm_with_moderated_by
             cm_with_is_moderated cm_with_is_approved].
      destruct (cm_id c' =? cm_id c) eqn:Q; [|reflexivity].
      apply Z.eqb_eq in Q. congruence.
Qed.

(** The comment of the sample is rejected by moderator 9 at time 70. *)
Lemma comment_defaults_and_reject_witness :
  exists s',
    admin_comment_reject Sample.thread 9 1 70 = Done s'
    /\ comments s'
       = [mkComment 1 (Some 2) (Some 8) None "A first comment here"
            false false 30 true (Some 9) (Some 70)].
Proof.
  destruct (proj2 (proj2 comment_defaults_and_reject)
              Sample.thread 9 1 70 Sample.top eq_refl) as (s' & E & _).
  exists s'. split; [exact E|].
  injection E as <-. reflexivity.
Defined.

(* ------------------------------------------------------------------ *)
(** ** Newsletter subscriptions *)

Lemma fresh_id_above ids i : In i ids -> i < fresh_id ids.
Proof.
  unfold fresh_id. induction ids as [|j ids IH]; cbn [fold_right In]; [tauto|].
  intros [->|H]; [lia | specialize (IH H); lia].
Qed.

Lemma replace_newsletter_length n rows :
  List.length (replace_newsletter n rows) = List.length rows.
Proof. apply length_map. Qed.

Lemma replace_newsletter_absent n rows :
  ~ In (n_id n) (map n_id rows) -> replace_newsletter n rows = rows.
Proof.
  unfold replace_newsletter. induction rows as [|r rows IH]; simpl; [reflexivity|].
  intro H. destruct (n_id r =? n_id n) eqn:E.
  - apply Z.eqb_eq in E. exfalso. apply H. left. exact E.
  - rewrite IH; [reflexivity | tauto].
Qed.

(** What the body of the view does with an address that has a row: the row
    gets the frequency and the categories of the form and becomes active,
    and the table keeps its size. *)
Lemma subscribe_cleaned_existing email frequency cats now rows n :
  find (fun r => String.eqb (n_email r) email) rows = Some n ->
  let n' := nl_with_categories cats
              (nl_with_is_active true (nl_with_frequency frequency n)) in
  List.length (subscribe_cleaned email frequency cats now rows) = List.length rows
  /\ In n' (subscribe_cleaned email frequency cats now rows)
  /\ n_email n' = n_email n /\ n_is_active n' = true
  /\ n_frequency n' = frequency /\ n_categories n' = cats.
Proof.
  intros Hf n'. unfold subscribe_cleaned, get_or_create. rewrite Hf.
  cbn [negb]. split; [|split; [|repeat split]].
  - rewrite !replace_newsletter_length. reflexivity.
  - apply find_some in Hf as [Hin _].
    unfold replace_newsletter at 1. apply in_map_iff.
    exists (nl_with_is_active true (nl_with_frequency frequency n)). split.
    + cbn [n_id nl_with_categories nl_with_is_active nl_with_frequency].
      rewrite Z.eqb_refl. reflexivity.
    + unfold replace_newsletter. apply in_map_iff. exists n. split; [|exact Hin].
      cbn [n_id nl_with_is_active nl_with_frequency].
      rewrite Z.eqb_refl. reflexivity.
Qed.

(** ... and with an address that has none: one row is added, active, with
    the frequency and the categories of the form. *)
Lemma subscribe_cleaned_new email frequency cats now rows :
  find (fun r => String.eqb (n_email r) email) rows = None ->
  subscribe_cleaned email frequency cats now rows
  = (rows ++ [mkNewsletter (fresh_id (map n_id rows)) email true now None
                cats frequency])%list.
Proof.
  intro Hf. unfold subscribe_cleaned, get_or_create. rewrite Hf. cbn [negb].
  unfold replace_newsletter. rewrite map_app.
  fold (replace_newsletter
          (nl_with_categories cats
             (mkNewsletter (fresh_id (map n_id rows)) email true now None [] frequency))
          rows).
  rewrite replace_newsletter_absent.
  - cbn [map n_id nl_with_categories]. rewrite Z.eqb_refl. reflexivity.
  - cbn [n_id nl_with_categories]. intro H. apply fresh_id_above in H. lia.
Qed.

Section NewsletterFacts.

Variable email_valid : string -> bool.

(** The form is not valid for an address that has a row, active or not. *)
Lemma existing_email_is_invalid s p :
  existsb (fun n => String.eqb (n_email n) (PyStr.strip (np_email p))) (newsletters s)
  = true ->
  NewsletterForm_is_valid email_valid s p = false.
Proof.
  intro H. unfold NewsletterForm_is_valid. rewrite H. apply andb_false_r.
Qed.

(** So the view leaves the store as it is. *)
Lemma resubscribe_leaves_store s method p now :
  existsb (fun n => String.eqb (n_email n) (PyStr.strip (np_email p))) (newsletters s)
  = true ->
  newsletter_subscribe email_valid s method p now = s.
Proof.
  intro H. unfold newsletter_subscribe. destruct method; [reflexivity|].
  rewrite existing_email_is_invalid by exact H. reflexivity.
Qed.

(** A valid form, which is a form for a new address, adds one row. *)
Lemma subscribe_new_email s p now :
  NewsletterForm_is_valid email_valid s p = true ->
  exists frequency,
    parse_frequency (np_frequency p) = Some frequency
    /\ newsletters (newsletter_subscribe email_valid s POST p now)
       = (newsletters s
          ++ [mkNewsletter (fresh_id (map n_id (newsletters s)))
                (PyStr.strip (np_email p)) true now None
                (np_categories p) frequency])%list.
Proof.
  intro Hv. unfold newsletter_subscribe. rewrite Hv.
  unfold NewsletterForm_is_valid in Hv.
  apply andb_true_iff in Hv as [Hv Hu].
  apply andb_true_iff in Hv as [Hv _].
  apply andb_true_iff in Hv as [_ Hp].
  destruct (parse_frequency (np_frequency p)) as [frequency|]; [|discriminate].
  exists frequency. split; [reflexivity|].
  cbn [newsletters with_newsletters].
  apply subscribe_cleaned_new.
  apply negb_true_iff in Hu.
  destruct (find _ (newsletters s)) as [n|] eqn:F; [|reflexivity].
  apply find_some in F as [Hin He].
  assert (existsb (fun n => String.eqb (n_email n) (PyStr.strip (np_email p)))
                  (newsletters s) = true)
    by (apply existsb_exists; eauto).
  congruence.
Qed.

End NewsletterFacts.

(** C7. The view is written to update the row of an address that
    subscribes again ([subscribe_cleaned_existing]), but it reaches that
    code only with a valid form, and the form is not valid for an address
    that has a row.  The lapsed reader of the sample subscribes again with
    frequency [daily] and one category: whatever the e-mail validator
    answers, the form is invalid and the store is unchanged, the row still
    inactive, weekly and without categories.  No second row appears, and a
    new address gets its one row. *)
Theorem resubscribe_does_not_reactivate :
  forall email_valid : string -> bool,
    NewsletterForm_is_valid email_valid Sample.readers Sample.again = false
    /\ newsletter_subscribe email_valid Sample.readers POST Sample.again 99
       = Sample.readers
    /\ newsletters Sample.readers = [Sample.lapsed]
    /\ n_is_active Sample.lapsed = false
    /\ n_frequency Sample.lapsed = Weekly
    /\ subscribe_cleaned "reader@example.org" Daily [1] 99 [Sample.lapsed]
       = [mkNewsletter 1 "reader@example.org" true 5 (Some 9) [1] Daily].
Proof.
  intro email_valid. repeat split.
  - apply existing_email_is_invalid. reflexivity.
  - apply resubscribe_leaves_store. reflexivity.
Qed.

Example new_address_gets_one_row :
  newsletters (newsletter_subscribe (fun _ => true) Sample.readers POST Sample.newcomer 99)
  = [Sample.lapsed; mkNewsletter 2 "other@example.org" true 99 None [1] Monthly].
Proof. reflexivity. Qed.

(* ------------------------------------------------------------------ *)
(** ** Idempotence, bounds, slugs, counters *)

(** X1. Saving an article twice is saving it once: a save right after a
    save, at whatever time, derives nothing anew and changes no field of
    the instance ([updated_at], which the store stamps by itself and the
    embedding leaves out, aside). *)
Theorem save_is_idempotent :
  forall (slugify : string -> string) (now1 now2 : Z) (a : Article),
    Article_save slugify now2 (Article_save slugify now1 a)
    = Article_save slugify now1 a.
Proof.
  intros slugify now1 now2 a. apply save_fixed.
  - rewrite save_slug, save_title.
    destruct (PyStr.truthy (slug a)) eqn:E; [left; exact E | right; reflexivity].
  - apply save_excerpt_settled.
  - apply save_meta_settled.
  - rewrite save_reading_time, save_content. reflexivity.
  - rewrite save_status, save_published_at.
    destruct (Status_eqb (status a) Published
              && negb (datetime_truthy (published_at a))) eqn:C; [|exact C].
    apply andb_false_r.
Qed.

Lemma take_length n : forall s, (String.length (PyStr.take n s) <= n)%nat.
Proof.
  induction n as [|n IH]; intros [|c r]; simpl; try lia.
  specialize (IH r). lia.
Qed.

Lemma append_length s t :
  String.length (s ++ t) = (String.length s + String.length t)%nat.
Proof. induction s as [|c s IH]; simpl; [reflexivity | rewrite IH; reflexivity]. Qed.

Lemma falsy_length s : PyStr.truthy s = false -> PyStr.len s = 0.
Proof. destruct s; [reflexivity | discriminate]. Qed.

(** X2. The texts the save derives fit their columns: an excerpt filled
    in for a blank one has at most 203 characters, under the 500 of the
    field, and a meta description filled in for a blank one at most the
    160 of the field. *)
Theorem derived_texts_fit :
  forall (slugify : string -> string) (now : Z) (a : Article),
    (PyStr.truthy (excerpt a) = false ->
       PyStr.len (excerpt (Article_save slugify now a)) <= 203)
    /\ (PyStr.truthy (meta_description a) = false ->
          PyStr.len (meta_description (Article_save slugify now a)) <= 160).
Proof.
  intros slugify now a. split; intro H.
  - rewrite save_excerpt, H. cbn [negb andb].
    destruct (PyStr.truthy (content a)).
    + destruct (PyStr.len (content a) >? 200) eqn:G.
      * unfold PyStr.len. rewrite append_length.
        pose proof (take_length 200 (content a)). cbn [String.length]. lia.
      * rewrite Z.gtb_ltb, Z.ltb_ge in G. lia.
    + rewrite (falsy_length _ H). lia.
  - rewrite save_meta_description, H. cbn [negb andb].
    destruct (PyStr.truthy (excerpt (Article_save slugify now a))).
    + unfold PyStr.len. pose proof (take_length 160 (excerpt (Article_save slugify now a))).
      lia.
    + rewrite (falsy_length _ H). lia.
Qed.

Lemma derived_texts_fit_witness :
  PyStr.len (excerpt (Article_save Sample.slugify 50 Sample.draft)) <= 203
  /\ PyStr.len (meta_description (Article_save Sample.slugify 50 Sample.draft)) <= 160.
Proof.
  split.
  - apply (proj1 (derived_texts_fit Sample.slugify 50 Sample.draft)). reflexivity.
  - apply (proj2 (derived_texts_fit Sample.slugify 50 Sample.draft)). reflexivity.
Defined.

Lemma step_keeps_slug slugify s row o :
  PyStr.truthy (slug row) = true ->
  slug (step slugify s row o) = slug row.
Proof.
  intro H. destruct o as [now [d| |]]; unfold step; cbn [fst snd].
  - destruct (form_save_cases slugify s now d row) as [E|E]; rewrite E;
      [reflexivity|].
    rewrite save_slug. cbn [slug ArticleForm_apply]. rewrite H. reflexivity.
  - reflexivity.
  - reflexivity.
Qed.

(** X3. A slug is derived once.  A save of an article, a category or a
    tag without slug takes the slug from the title or name; once the slug
    is not blank, no sequence of form saves (which may change the title)
    and counts changes the slug of an article, and a save of a category or
    tag changes nothing at all. *)
Theorem slug_derived_once :
  forall (slugify : string -> string) (s : Store),
    (forall now a, PyStr.truthy (slug a) = false ->
       slug (Article_save slugify now a) = slugify (title a))
    /\ (forall a os, PyStr.truthy (slug a) = true ->
          slug (run slugify s a os) = slug a)
    /\ (forall c, PyStr.truthy (c_slug c) = false ->
          c_slug (Category_save slugify c) = slugify (c_name c))
    /\ (forall c, PyStr.truthy (c_slug c) = true -> Category_save slugify c = c)
    /\ (forall t, PyStr.truthy (t_slug t) = false ->
          t_slug (Tag_save slugify t) = slugify (t_name t))
    /\ (forall t, PyStr.truthy (t_slug t) = true -> Tag_save slugify t = t).
Proof.
  intros slugify s. repeat split.
  - intros now a H. rewrite save_slug, H. reflexivity.
  - intros a os. revert a. induction os as [|o os IH]; intros a H; [reflexivity|].
    unfold run; cbn [fold_left]. fold (run slugify s (step slugify s a o) os).
    pose proof (step_keeps_slug slugify s a o H) as E.
    rewrite IH; [exact E | rewrite E; exact H].
  - intros c H. unfold Category_save. rewrite H. reflexivity.
  - intros c H. unfold Category_save. rewrite H. reflexivity.
  - intros t H. unfold Tag_save. rewrite H. reflexivity.
  - intros t H. unfold Tag_save. rewrite H. reflexivity.
Qed.

Lemma slug_derived_once_witness :
  slug (run Sample.slugify Sample.store Sample.live
          [(200, OpFormSave (Sample.retitled)); (300, OpView)])
  = "library-budget-approved"
  /\ title (run Sample.slugify Sample.store Sample.live
              [(200, OpFormSave (Sample.retitled)); (300, OpView)])
     = "Library budget rejected".
Proof.
  split.
  - apply (proj1 (proj2 (slug_derived_once Sample.slugify Sample.store))).
    reflexivity.
  - vm_compute. reflexivity.
Defined.

(** X4. Counting views writes the one column: after any number of view
    counts the stored row is the row before with [view_count] raised by
    that number, and likewise for shares; publication time, reading time
    and the derived texts of the stored row do not move. *)
Theorem counts_write_one_column :
  forall (slugify : string -> string) (s : Store) (times : list Z) (row : Article),
    run slugify s row (map (fun t => (t, OpView)) times)
    = set_view_count (view_count row + Z.of_nat (List.length times)) row
    /\ run slugify s row (map (fun t => (t, OpShare)) times)
       = set_share_count (share_count row + Z.of_nat (List.length times)) row.
Proof.
  intros slugify s times. induction times as [|t times IH]; intro row.
  - destruct row. cbn. rewrite !Z.add_0_r. split; reflexivity.
  - unfold run in *. cbn [map fold_left].
    destruct (IH (step slugify s row (t, OpView))) as [IH1 _].
    destruct (IH (step slugify s row (t, OpShare))) as [_ IH2].
    rewrite IH1, IH2. clear IH IH1 IH2.
    unfold step; cbn [fst snd].
    unfold increment_view_count, increment_share_count, persisted;
      cbn [snd fold_right write_field].
    destruct (save_view_count slugify t (set_view_count (view_count row + 1) row))
      as [V _].
    destruct (save_view_count slugify t (set_share_count (share_count row + 1) row))
      as [_ S].
    rewrite V, S. destruct row. article_fields.
    unfold set_view_count, set_share_count. article_fields.
    replace (Z.of_nat (List.length (t :: times)))
      with (1 + Z.of_nat (List.length times)) by (cbn [List.length]; lia).
    rewrite !Z.add_assoc. split; reflexivity.
Qed.

(* ------------------------------------------------------------------ *)
(** ** More on the query sets *)

Section OrderByMore.
Context {A : Type} (before : A -> A -> bool).

Lemma insert_row_perm x l : Permutation (insert_row before x l) (x :: l).
Proof.
  induction l as [|y l IH]; simpl; [reflexivity|].
  destruct (before x y); [reflexivity|].
  rewrite IH. apply perm_swap.
Qed.

Lemma order_by_perm l : Permutation (order_by before l) l.
Proof.
  induction l as [|x l IH]; simpl; [reflexivity|].
  rewrite insert_row_perm. constructor. exact IH.
Qed.

Lemma order_by_length l : List.length (order_by before l) = List.length l.
Proof. apply Permutation_length, order_by_perm. Qed.

End OrderByMore.


Lemma nodup_firstn {A} n : forall (l : list A), NoDup l -> NoDup (firstn n l).
Proof.
  induction n as [|n IH]; intros l H; [constructor|].
  destruct H as [|x l Hx H]; [constructor|].
  cbn [firstn]. constructor; [|apply IH, H].
  intro Hin. apply Hx. eapply in_firstn, Hin.
Qed.

Lemma mem_true x xs : mem x xs = true <-> In x xs.
Proof.
  unfold mem. rewrite existsb_exists. split.
  - intros (y & Hy & E). apply Z.eqb_eq in E. subst. exact Hy.
  - intro H. exists x. split; [exact H | apply Z.eqb_refl].
Qed.

Lemma distinct_from_nodup l : forall seen,
  NoDup (map a_id (distinct_from seen l))
  /\ (forall x, In x (distinct_from seen l) -> mem (a_id x) seen = false).
Proof.
  induction l as [|y l IH]; intro seen; cbn [distinct_from].
  - split; [constructor | intros x []].
  - destruct (mem (a_id y) seen) eqn:M; [apply IH|].
    destruct (IH (a_id y :: seen)) as [N K]. split.
    + cbn [map]. constructor; [|exact N].
      intro Hin. apply in_map_iff in Hin as (x & E & Hx).
      specialize (K x Hx). unfold mem in K. cbn [existsb] in K.
      rewrite E, Z.eqb_refl in K. discriminate.
    + intros x [->|Hx]; [exact M|].
      specialize (K x Hx). unfold mem in *. cbn [existsb] in K.
      apply orb_false_iff in K. tauto.
Qed.

(** On a table with unique keys [distinct] has nothing to remove. *)
Lemma distinct_from_unique l : forall seen,
  NoDup (map a_id l) ->
  (forall x, In x l -> mem (a_id x) seen = false) ->
  distinct_from seen l = l.
Proof.
  induction l as [|y l IH]; intros seen N K; [reflexivity|].
  cbn [distinct_from]. rewrite (K y) by (left; reflexivity).
  f_equal. inversion N as [|? ? Hy N']; subst.
  apply IH; [exact N'|].
  intros x Hx. unfold mem. cbn [existsb].
  apply orb_false_iff. split; [|apply K; right; exact Hx].
  apply Z.eqb_neq. intro E. apply Hy. rewrite <- E.
  apply in_map. exact Hx.
Qed.

Lemma nodup_map_filter {A B} (f : A -> B) (P : A -> bool) l :
  NoDup (map f l) -> NoDup (map f (filter P l)).
Proof.
  induction l as [|x l IH]; intro N; [constructor|].
  inversion N as [|? ? Hx N']; subst. cbn [filter].
  destruct (P x); [|apply IH, N'].
  cbn [map]. constructor; [|apply IH, N'].
  intro Hin. apply Hx. apply in_map_iff in Hin as (y & E & Hy).
  apply filter_In in Hy as [Hy _]. rewrite <- E. apply in_map, Hy.
Qed.

(** X5. The related articles of an article never contain the article
    itself, contain no article twice, are at most [limit], and each of them
    is a row of the table that has the category of the article or one of
    its tags. *)
Theorem related_articles_shape :
  forall (s : Store) (self : Article) (limit : nat),
    let rel := get_related_articles s self limit in
    (List.length rel <= limit)%nat
    /\ NoDup (map a_id rel)
    /\ (forall a, In a rel ->
          In a (articles s)
          /\ a_id a <> a_id self
          /\ (category a = category self
              \/ exists t, In t (tags a) /\ In t (tags self))).
Proof.
  intros s self limit rel. subst rel. unfold get_related_articles.
  split; [apply firstn_le_length|]. split.
  - rewrite <- firstn_map. apply nodup_firstn.
    eapply Permutation_NoDup;
      [apply Permutation_map, Permutation_sym, order_by_perm|].
    apply distinct_from_nodup.
  - intros a H.
    apply in_firstn, in_order_by, in_distinct_from in H.
    apply filter_In in H as [H Hne]. apply filter_In in H as [H Hc].
    split; [exact H|]. split.
    + apply negb_true_iff, Z.eqb_neq in Hne. exact Hne.
    + apply orb_true_iff in Hc as [Hc|Hc].
      * left. apply Z.eqb_eq, Hc.
      * right. apply existsb_exists in Hc as (t & Ht & M).
        exists t. split; [exact Ht | apply mem_true, M].
Qed.

(** Membership in the stages of the article list. *)
Lemma in_when_filter {A} (c : bool) (P : A -> bool) l x :
  In x (when_ c (filter P) l) <-> In x l /\ (c = true -> P x = true).
Proof.
  unfold when_. destruct c.
  - rewrite filter_In. intuition.
  - intuition. discriminate.
Qed.

Lemma in_opt_filter {A} (o : option Z) (P : Z -> A -> bool) l x :
  In x (match o with Some d => filter (P d) l | None => l end)
  <-> In x l /\ (forall d, o = Some d -> P d x = true).
Proof.
  destruct o as [d|].
  - rewrite filter_In. split.
    + intros [H1 H2]. split; [exact H1|]. intros d' E. injection E as <-. exact H2.
    + intros [H1 H2]. split; [exact H1 | apply H2; reflexivity].
  - split; [intro H; split; [exact H | discriminate] | tauto].
Qed.

Lemma in_when_search (c : bool) (P : Article -> bool) l x :
  NoDup (map a_id l) ->
  In x (when_ c (fun qs => distinct (filter P qs)) l)
  <-> In x l /\ (c = true -> P x = true).
Proof.
  intro N. unfold when_. destruct c.
  - unfold distinct. rewrite distinct_from_unique.
    + rewrite filter_In. intuition.
    + apply nodup_map_filter, N.
    + reflexivity.
  - intuition. discriminate.
Qed.

Lemma list_membership s p a :
  NoDup (map a_id (articles s)) ->
  In a (ArticleListView_get_queryset s p)
  <-> (In a (articles s) /\ visible a = true)
      /\ (given (p_q p) = true -> matches_search s (text_of (p_q p)) a = true)
      /\ (given (p_category p) = true ->
            existsb (fun c => String.eqb (c_slug c) (text_of (p_category p)))
                    (category_of s a) = true)
      /\ (given (p_tag p) = true ->
            existsb (fun t => String.eqb (t_slug t) (text_of (p_tag p)))
                    (tags_of s a) = true)
      /\ (forall d, p_date_from p = Some d -> published_date_ge d a = true)
      /\ (forall d, p_date_to p = Some d -> published_date_le d a = true).
Proof.
  intro N. unfold ArticleListView_get_queryset.
  rewrite in_order_by, in_opt_filter, in_opt_filter.
  rewrite (in_when_filter (given (p_tag p))), (in_when_filter (given (p_category p))).
  rewrite in_when_search by (apply nodup_map_filter, N).
  rewrite filter_In. tauto.
Qed.

(** X6. On a table with unique keys, an article is in the article list
    exactly when it is a visible row that passes every filter that was
    given: the search text occurs in its title, content, excerpt or a tag
    name, its category has the slug, one of its tags has the slug, and its
    publication day lies within the bounds. *)
Theorem article_list_is_the_filtered_table :
  forall (s : Store) (p : ListParams) (a : Article),
    NoDup (map a_id (articles s)) ->
    (In a (ArticleListView_get_queryset s p)
     <-> In a (articles s) /\ visible a = true
         /\ (given (p_q p) = true -> matches_search s (text_of (p_q p)) a = true)
         /\ (given (p_category p) = true ->
               exists c, In c (categories s) /\ c_id c = category a
                         /\ c_slug c = text_of (p_category p))
         /\ (given (p_tag p) = true ->
               exists t, In t (all_tags s) /\ In (t_id t) (tags a)
                         /\ t_slug t = text_of (p_tag p))
         /\ (forall d, p_date_from p = Some d ->
               exists t, published_at a = Some t /\ d <= date_of t)
         /\ (forall d, p_date_to p = Some d ->
               exists t, published_at a = Some t /\ date_of t <= d)).
Proof.
  intros s p a N. rewrite (list_membership s p a N).
  assert (C : forall sl,
             existsb (fun c => String.eqb (c_slug c) sl) (category_of s a) = true
             <-> exists c, In c (categories s) /\ c_id c = category a /\ c_slug c = sl).
  { intro sl. rewrite existsb_exists. unfold category_of. split.
    - intros (c & Hc & E). apply filter_In in Hc as [Hc Hi].
      exists c. rewrite Z.eqb_eq in Hi. apply String.eqb_eq in E. auto.
    - intros (c & Hc & Hi & E). exists c. rewrite filter_In, Z.eqb_eq.
      split; [auto | apply String.eqb_eq, E]. }
  assert (T : forall sl,
             existsb (fun t => String.eqb (t_slug t) sl) (tags_of s a) = true
             <-> exists t, In t (all_tags s) /\ In (t_id t) (tags a) /\ t_slug t = sl).
  { intro sl. rewrite existsb_exists. unfold tags_of. split.
    - intros (t & Ht & E). apply filter_In in Ht as [Ht Hi].
      exists t. apply mem_true in Hi. apply String.eqb_eq in E. auto.
    - intros (t & Ht & Hi & E). exists t. rewrite filter_In, mem_true.
      split; [auto | apply String.eqb_eq, E]. }
  assert (F : forall d, published_date_ge d a = true
                        <-> exists t, published_at a = Some t /\ d <= date_of t).
  { intro d. unfold published_date_ge. destruct (published_at a) as [t|].
    - rewrite Z.leb_le. split; [intro H; exists t; auto|].
      intros (t' & E & H). injection E as <-. exact H.
    - split; [discriminate | intros (t & E & _); discriminate]. }
  assert (G : forall d, published_date_le d a = true
                        <-> exists t, published_at a = Some t /\ date_of t <= d).
  { intro d. unfold published_date_le. destruct (published_at a) as [t|].
    - rewrite Z.leb_le. split; [intro H; exists t; auto|].
      intros (t' & E & H). injection E as <-. exact H.
    - split; [discriminate | intros (t & E & _); discriminate]. }
  rewrite C, T.
  split.
  - intros ((H1 & H2) & H3 & H4 & H5 & H6 & H7). repeat split; auto.
    + intros d E. apply F, H6, E.
    + intros d E. apply G, H7, E.
  - intros (H1 & H2 & H3 & H4 & H5 & H6 & H7). repeat split; auto.
    + intros d E. apply F, H6, E.
    + intros d E. apply G, H7, E.
Qed.

Lemma article_list_is_the_filtered_table_witness :
  In Sample.live
     (ArticleListView_get_queryset Sample.store
        (mkListParams (Some "BUDGET") (Some "news") None (Some 0) None)).
Proof.
  apply (article_list_is_the_filtered_table Sample.store
           (mkListParams (Some "BUDGET") (Some "news") None (Some 0) None)
           Sample.live).
  - repeat constructor; simpl; intuition discriminate.
  - split; [simpl; auto|]. split; [reflexivity|]. split; [reflexivity|].
    split; [intros _; exists Sample.news; simpl; auto|].
    split; [discriminate|]. split; [|discriminate].
    intros d E. injection E as <-. exists 100. split; [reflexivity|].
    vm_compute. discriminate.
Defined.

(** X7. The detail page finds an article by its slug among the visible
    ones only: what it returns is a visible row with that slug, and it
    answers 404 exactly when no visible row has the slug, be the slug
    unknown or that of a draft or a withdrawn article. *)
Theorem detail_page_lookup :
  forall (s : Store) (sl : string),
    (forall a, ArticleDetailView_get_object s sl = Some a ->
       In a (articles s) /\ visible a = true /\ slug a = sl)
    /\ (ArticleDetailView_get_object s sl = None
        <-> forall a, In a (articles s) -> visible a = true -> slug a <> sl).
Proof.
  intros s sl. unfold ArticleDetailView_get_object. split.
  - intros a H. apply find_some in H as [H E].
    apply filter_In in H as [H V]. apply String.eqb_eq in E. auto.
  - split.
    + intros H a Ha V E.
      pose proof (find_none _ _ H a) as K.
      rewrite filter_In in K. specialize (K (conj Ha V)).
      apply String.eqb_neq in K. contradiction.
    + intro H. destruct (find _ _) as [a|] eqn:F; [|reflexivity].
      apply find_some in F as [F E]. apply filter_In in F as [F V].
      apply String.eqb_eq in E. exfalso. exact (H a F V E).
Qed.

Lemma sorted_weaken {A} (R R' : A -> A -> Prop) l :
  (forall x y, R x y -> R' x y) -> Sorted R l -> Sorted R' l.
Proof.
  intros W. induction 1 as [|x l Hs IH Hd]; constructor; [exact IH|].
  destruct Hd; constructor; auto.
Qed.




(** X9. The featured highlights are at most six visible articles of the
    tiers featured, trending or breaking, never of the tier normal; when
    the table has at most six such articles, all of them are listed. *)
Theorem featured_highlights_shape :
  forall (s : Store),
    let tiered := fun a => visible a
                           && (Featured_eqb (featured a) FeaturedTier
                               || Featured_eqb (featured a) Trending
                               || Featured_eqb (featured a) Breaking) in
    (List.length (featured_articles s) <= 6)%nat
    /\ (forall a, In a (featured_articles s) ->
          In a (articles s) /\ visible a = true /\ featured a <> Normal)
    /\ ((List.length (filter tiered (articles s)) <= 6)%nat ->
        forall a, In a (articles s) -> visible a = true -> featured a <> Normal ->
                  In a (featured_articles s)).
Proof.
  intros s tiered. unfold featured_articles. fold tiered.
  split; [apply firstn_le_length|]. split.
  - intros a H. apply in_firstn, in_order_by, filter_In in H as [H T].
    subst tiered. cbn beta in T. apply andb_true_iff in T as [V T].
    split; [exact H|]. split; [exact V|].
    intro E. rewrite E in T. discriminate.
  - intros L a Ha V N.
    rewrite firstn_all2 by (rewrite order_by_length; exact L).
    apply in_order_by, filter_In. split; [exact Ha|].
    subst tiered. cbn beta. rewrite V.
    destruct (featured a); try reflexivity. congruence.
Qed.

Lemma featured_highlights_shape_witness :
  In Sample.breaking (featured_articles Sample.front).
Proof.
  apply (proj2 (proj2 (featured_highlights_shape Sample.front))).
  - vm_compute. lia.
  - simpl. auto.
  - reflexivity.
  - discriminate.
Defined.

(** X10. The page of a category shows the articles the article list shows
    under that category slug, when slugs name one category each; for a slug
    that names no category the page answers 404 while the list is empty.
    The page does not ask the category to be active. *)
Theorem category_page_matches_list :
  forall (s : Store) (sl : string),
    PyStr.truthy sl = true ->
    (forall c1 c2, In c1 (categories s) -> In c2 (categories s) ->
                   c_slug c1 = c_slug c2 -> c_id c1 = c_id c2) ->
    let by_category := mkListParams None (Some sl) None None None in
    (forall c, find (fun c => String.eqb (c_slug c) sl) (categories s) = Some c ->
       exists l, CategoryDetailView_get_queryset s sl = Some l
                 /\ forall a, In a l <-> In a (ArticleListView_get_queryset s by_category))
    /\ (find (fun c => String.eqb (c_slug c) sl) (categories s) = None ->
        CategoryDetailView_get_queryset s sl = None
        /\ ArticleListView_get_queryset s by_category = []).
Proof.
  intros s sl Hsl U by_category. split.
  - intros c F. unfold CategoryDetailView_get_queryset. rewrite F.
    eexists. split; [reflexivity|]. intro a.
    apply find_some in F as [Hc E]. apply String.eqb_eq in E.
    unfold ArticleListView_get_queryset, by_category, when_.
    cbn [p_q p_category p_tag p_date_from p_date_to given text_of].
    rewrite Hsl. cbv iota.
    rewrite !in_order_by, !filter_In. rewrite andb_true_iff, Z.eqb_eq.
    rewrite existsb_exists. unfold category_of. split.
    + intros (Ha & Hi & V). repeat split; auto.
      exists c. rewrite filter_In, Z.eqb_eq, String.eqb_eq. auto.
    + intros ((Ha & V) & c' & Hc' & E'). apply filter_In in Hc' as [Hc' Hi].
      apply Z.eqb_eq in Hi. apply String.eqb_eq in E'.
      repeat split; auto. rewrite <- Hi. apply U; auto. congruence.
  - intro F. unfold CategoryDetailView_get_queryset. rewrite F.
    split; [reflexivity|].
    unfold ArticleListView_get_queryset, by_category, when_.
    cbn [p_q p_category p_tag p_date_from p_date_to given text_of].
    rewrite Hsl. cbv iota.
    destruct (order_by _ _) as [|a l] eqn:O; [reflexivity|].
    assert (Ha : In a (a :: l)) by (left; reflexivity).
    rewrite <- O in Ha. apply in_order_by, filter_In in Ha as [_ Ha].
    apply existsb_exists in Ha as (c & Hc & E).
    apply filter_In in Hc as [Hc _].
    pose proof (find_none _ _ F c Hc) as K. cbv beta in K. congruence.
Qed.

Lemma category_page_matches_list_witness :
  exists l,
    CategoryDetailView_get_queryset Sample.front "news" = Some l
    /\ forall a, In a l
                 <-> In a (ArticleListView_get_queryset Sample.front
                             (mkListParams None (Some "news") None None None)).
Proof.
  apply (proj1 (category_page_matches_list Sample.front "news" eq_refl
                  (fun c1 c2 H1 H2 _ =>
                     match H1, H2 with
                     | or_introl e1, or_introl e2 =>
                         eq_trans (f_equal c_id (eq_sym e1)) (f_equal c_id e2)
                     | or_intror f, _ => match f with end
                     | _, or_intror f => match f with end
                     end)) Sample.news).
  reflexivity.
Defined.

(* ------------------------------------------------------------------ *)
(** ** Deleting comments *)

Lemma mem_false x xs : mem x xs = false <-> ~ In x xs.
Proof.
  rewrite <- mem_true. destruct (mem x xs); split; congruence.
Qed.

Lemma mem_app x xs ys : mem x (xs ++ ys) = mem x xs || mem x ys.
Proof. unfold mem. apply existsb_app. Qed.

Lemma cascade_step k ids cs :
  cascade (S k) ids cs = cascade k (ids ++ map cm_id (next_round ids cs)) cs.
Proof. reflexivity. Qed.

Lemma cascade_grows cs k : forall ids i, In i ids -> In i (cascade k ids cs).
Proof.
  induction k as [|k IH]; intros ids i H; [exact H|].
  rewrite cascade_step. apply IH, in_or_app. left. exact H.
Qed.

(** Every key the cascade reaches is in a thread below the targets. *)
Lemma cascade_sound ids0 cs k : forall ids,
  (forall i, In i ids -> below ids0 cs i) ->
  forall i, In i (cascade k ids cs) -> below ids0 cs i.
Proof.
  induction k as [|k IH]; intros ids H i Hi; [apply H, Hi|].
  rewrite cascade_step in Hi. eapply IH; [|exact Hi].
  intros j Hj. apply in_app_or in Hj as [Hj|Hj]; [apply H, Hj|].
  apply in_map_iff in Hj as (c & <- & Hc).
  apply filter_In in Hc as [Hc P].
  destruct (cm_parent c) as [p|] eqn:E; [|discriminate].
  apply andb_true_iff in P as [P _]. apply mem_true in P.
  eapply below_reply; eauto.
Qed.

(** A set of keys is closed when it holds the replies to its comments. *)
Lemma closed_when_round_empty ids cs :
  next_round ids cs = [] ->
  forall c p, In c cs -> cm_parent c = Some p -> In p ids -> In (cm_id c) ids.
Proof.
  intros E c p Hc Hp Hin.
  destruct (mem (cm_id c) ids) eqn:M; [apply mem_true, M|].
  assert (K : In c (next_round ids cs)).
  { unfold next_round. apply filter_In. split; [exact Hc|].
    rewrite Hp, M. apply mem_true in Hin. rewrite Hin. reflexivity. }
  rewrite E in K. destruct K.
Qed.

Lemma cascade_of_closed cs k : forall ids,
  next_round ids cs = [] -> cascade k ids cs = ids.
Proof.
  induction k as [|k IH]; intros ids E; [reflexivity|].
  rewrite cascade_step, E. cbn [map]. rewrite app_nil_r. apply IH, E.
Qed.

Lemma filter_length_le {A} (P Q : A -> bool) l :
  (forall x, P x = true -> Q x = true) ->
  (List.length (filter P l) <= List.length (filter Q l))%nat.
Proof.
  intro W. induction l as [|x l IH]; cbn [filter]; [lia|].
  destruct (P x) eqn:E.
  - rewrite (W x E). cbn [List.length]. lia.
  - destruct (Q x); cbn [List.length]; lia.
Qed.

Lemma filter_length_lt {A} (P Q : A -> bool) l x0 :
  (forall x, P x = true -> Q x = true) ->
  In x0 l -> P x0 = false -> Q x0 = true ->
  (List.length (filter P l) < List.length (filter Q l))%nat.
Proof.
  intros W. induction l as [|x l IH]; intros Hin HP HQ; [destruct Hin|].
  cbn [filter]. destruct Hin as [->|Hin].
  - rewrite HP, HQ. cbn [List.length].
    pose proof (filter_length_le P Q l W). lia.
  - specialize (IH Hin HP HQ). destruct (P x) eqn:E.
    + rewrite (W x E). cbn [List.length]. lia.
    + destruct (Q x); cbn [List.length]; lia.
Qed.

Lemma filter_length_all {A} (P : A -> bool) l :
  (List.length l <= List.length (filter P l))%nat ->
  forall x, In x l -> P x = true.
Proof.
  induction l as [|y l IH]; intros L x Hx; [destruct Hx|].
  cbn [filter] in L. destruct (P y) eqn:E.
  - cbn [List.length] in L. destruct Hx as [->|Hx]; [exact E|].
    apply IH; [lia | exact Hx].
  - cbn [List.length] in L.
    assert (List.length (filter P l) <= List.length l)%nat.
    { clear. induction l as [|z l IH]; cbn [filter List.length]; [lia|].
      destruct (P z); cbn [List.length]; lia. }
    lia.
Qed.

(** With one round per comment the cascade is closed. *)
Lemma cascade_closed cs k : forall ids,
  (List.length cs
   <= k + List.length (filter (fun c => mem (cm_id c) ids) cs))%nat ->
  forall c p, In c cs -> cm_parent c = Some p ->
              In p (cascade k ids cs) -> In (cm_id c) (cascade k ids cs).
Proof.
  induction k as [|k IH]; intros ids L c p Hc Hp Hin.
  - cbn [cascade] in *. apply mem_true.
    apply (filter_length_all (fun c => mem (cm_id c) ids) cs); [lia | exact Hc].
  - destruct (next_round ids cs) as [|c0 r] eqn:E.
    + rewrite (cascade_of_closed cs (S k) ids E) in *.
      eapply closed_when_round_empty; eauto.
    + rewrite cascade_step in *. eapply IH; [|exact Hc|exact Hp|exact Hin].
      assert (H0 : In c0 (next_round ids cs)) by (rewrite E; left; reflexivity).
      unfold next_round in H0. apply filter_In in H0 as [H0 P0].
      destruct (cm_parent c0) as [p0|]; [|discriminate].
      apply andb_true_iff in P0 as [_ P0]. apply negb_true_iff in P0.
      assert (List.length (filter (fun c => mem (cm_id c) ids) cs)
              < List.length
                  (filter (fun c => mem (cm_id c)
                                      (ids ++ map cm_id (next_round ids cs))) cs))%nat.
      { apply (filter_length_lt _ _ cs c0); [|exact H0|exact P0|].
        - intros x Hx. rewrite mem_app, Hx. reflexivity.
        - rewrite mem_app. apply orb_true_iff. right. apply mem_true.
          apply in_map. rewrite E. left. reflexivity. }
      lia.
Qed.

(** X11. A delete of comments removes exactly the threads below the
    targets: a comment stays if and only if its key is neither a target nor
    that of a reply, at any depth, to a removed comment.  So no reply is
    left whose parent was removed. *)
Theorem delete_removes_whole_threads :
  forall (ids : list Z) (cs : list Comment),
    (forall c, In c (delete_comments ids cs) <-> In c cs /\ ~ below ids cs (cm_id c))
    /\ (forall c p, In c (delete_comments ids cs) -> cm_parent c = Some p ->
          ~ below ids cs p).
Proof.
  intros ids cs.
  assert (S : forall i, In i (cascade (List.length cs) ids cs) <-> below ids cs i).
  { intro i. split.
    - apply (cascade_sound ids cs (List.length cs) ids). intros j Hj.
      apply below_root, Hj.
    - induction 1 as [i Hi|c' p Hc' Hp _ IH].
      + apply cascade_grows, Hi.
      + eapply cascade_closed; eauto. lia. }
  assert (K : forall c, In c (delete_comments ids cs)
                        <-> In c cs /\ ~ below ids cs (cm_id c)).
  { intro c. unfold delete_comments.
    rewrite filter_In, negb_true_iff, mem_false, S. reflexivity. }
  split; [exact K|].
  intros c p Hc Hp Hb. apply K in Hc as [Hc Hn].
  apply Hn. eapply below_reply; eauto.
Qed.

Example delete_of_a_thread :
  delete_comments [1] (comments Sample.threads) = [Sample.apart].
Proof. reflexivity. Qed.

(* ------------------------------------------------------------------ *)
(** ** Moderation *)

Lemma forallb_map_keeps {A} (P : A -> bool) (f : A -> A) l :
  (forall x, P x = true -> P (f x) = true) ->
  forallb P l = true -> forallb P (map f l) = true.
Proof.
  intros W H. rewrite forallb_forall in *. intros y Hy.
  apply in_map_iff in Hy as (x & <- & Hx). auto.
Qed.

Lemma forallb_filter_keeps {A} (P Q : A -> bool) l :
  forallb P l = true -> forallb P (filter Q l) = true.
Proof.
  intro H. rewrite forallb_forall in *. intros y Hy.
  apply filter_In in Hy as [Hy _]. auto.
Qed.

Lemma find_comment_in (cs : list Comment) i c :
  find (fun c => cm_id c =? i) cs = Some c -> In c cs.
Proof. intro H. apply find_some in H. tauto. Qed.

(** X12. The moderation fields stay together.  If every stored comment
    that is marked as moderated names its moderator and the time, this is
    still so after a new comment, an approval, a rejection, a delete and
    every bulk action. *)
Theorem moderation_fields_stay_paired :
  forall (s : Store),
    forallb moderation_paired (comments s) = true ->
    (forall user article_slug text now s',
        add_comment s user article_slug text now = Done s' ->
        forallb moderation_paired (comments s') = true)
    /\ (forall user comment_id now s',
          admin_comment_approve s user comment_id now = Done s' ->
          forallb moderation_paired (comments s') = true)
    /\ (forall user comment_id now s',
          admin_comment_reject s user comment_id now = Done s' ->
          forallb moderation_paired (comments s') = true)
    /\ (forall method comment_id s',
          admin_comment_delete s method comment_id = Done s' ->
          forallb moderation_paired (comments s') = true)
    /\ (forall method action ids user now,
          forallb moderation_paired
            (comments (admin_bulk_actions s method action ids user now)) = true).
Proof.
  intros s H. repeat split.
  - intros user article_slug text now s'. unfold add_comment.
    destruct (find _ (articles s)) as [article|]; [|discriminate].
    destruct (content_is_valid text); [|intro E; injection E as <-; exact H].
    unfold Comment_insert. cbn [cm_article cm_author cm_with_article CommentForm_save
      cm_with_author]. intro E. injection E as <-.
    cbn [comments with_comments]. rewrite forallb_app, H. reflexivity.
  - intros user comment_id now s'. unfold admin_comment_approve.
    destruct (find _ (comments s)) as [c|]; [|discriminate].
    intro E. injection E as <-. cbn [comments Comment_update with_comments].
    apply forallb_map_keeps; [|exact H].
    intros r Hr. destruct (cm_id r =? _); [reflexivity | exact Hr].
  - intros user comment_id now s'. unfold admin_comment_reject.
    destruct (find _ (comments s)) as [c|]; [|discriminate].
    intro E. injection E as <-. cbn [comments Comment_update with_comments].
    apply forallb_map_keeps; [|exact H].
    intros r Hr. destruct (cm_id r =? _); [reflexivity | exact Hr].
  - intros method comment_id s'. unfold admin_comment_delete.
    destruct (find _ (comments s)) as [c|]; [|discriminate].
    destruct method; intro E; injection E as <-; [exact H|].
    cbn [comments with_comments]. apply forallb_filter_keeps, H.
  - intros method action ids user now. unfold admin_bulk_actions.
    destruct method; [exact H|].
    repeat match goal with
           | |- context [if String.eqb action ?a then _ else _] =>
               destruct (String.eqb action a)
           end; cbn [comments with_articles with_comments with_contacts];
      try exact H.
    + apply forallb_map_keeps; [|exact H].
      intros r Hr. destruct (mem (cm_id r) ids); [reflexivity | exact Hr].
    + apply forallb_filter_keeps, H.
Qed.

Lemma moderation_fields_stay_paired_witness :
  forallb moderation_paired
    (comments (admin_bulk_actions Sample.threads POST "approve_comments" [1; 4] 9 70))
  = true.
Proof.
  apply (proj2 (proj2 (proj2 (proj2
           (moderation_fields_stay_paired Sample.threads eq_refl))))).
Defined.

(* ------------------------------------------------------------------ *)
(** ** Commenting *)


(** A text with a NUL character is refused, whatever its length. *)
Example comment_with_nul_is_not_stored :
  add_comment Sample.threads 7 "library-budget-approved" Sample.text_with_nul 60
  = Done Sample.threads
  /\ 10 <= PyStr.len (PyStr.strip Sample.text_with_nul).
Proof. split; [reflexivity | vm_compute; discriminate]. Qed.


Lemma by_created_asc_total x y :
  by_created_asc x y = false -> by_created_asc y x = true.
Proof. unfold by_created_asc. rewrite Z.leb_gt, Z.leb_le. lia. Qed.

Lemma by_created_desc_total x y :
  by_created_desc x y = false -> by_created_desc y x = true.
Proof. unfold by_created_desc. rewrite Z.leb_gt, Z.leb_le. lia. Qed.

Lemma opt_is_true o i : opt_is o i = true <-> o = Some i.
Proof.
  destruct o as [j|]; cbn [opt_is]; [|split; discriminate].
  rewrite Z.eqb_eq. split; congruence.
Qed.

Lemma is_none_true o : is_none o = true <-> o = None.
Proof. destruct o; cbn [is_none]; split; congruence. Qed.

(** X14. The replies shown under a comment are the approved comments
    whose parent it is, oldest first; replies to a reply are not among
    them.  The comments shown under an article are its approved top-level
    comments, newest first. *)
Theorem thread_listings :
  forall (s : Store) (self : Comment) (article : Article),
    (forall c, In c (get_replies s self)
               <-> In c (comments s) /\ cm_parent c = Some (cm_id self)
                   /\ cm_is_approved c = true)
    /\ Sorted (fun x y => cm_created_at x <= cm_created_at y) (get_replies s self)
    /\ (forall c, In c (top_level_comments s article)
                  <-> In c (comments s) /\ cm_article c = Some (a_id article)
                      /\ cm_is_approved c = true /\ cm_parent c = None)
    /\ Sorted (fun x y => cm_created_at y <= cm_created_at x)
              (top_level_comments s article).
Proof.
  intros s self article. unfold get_replies, top_level_comments. repeat split.
  - apply in_order_by, filter_In in H. tauto.
  - apply in_order_by, filter_In in H as [_ H].
    apply andb_true_iff in H as [H _]. apply opt_is_true, H.
  - apply in_order_by, filter_In in H as [_ H].
    apply andb_true_iff in H. tauto.
  - intros (H1 & H2 & H3). apply in_order_by, filter_In. split; [exact H1|].
    apply andb_true_iff. split; [apply opt_is_true, H2 | exact H3].
  - eapply sorted_weaken;
      [|apply (order_by_sorted by_created_asc by_created_asc_total)].
    intros x y H. apply Z.leb_le, H.
  - apply in_order_by, filter_In in H. tauto.
  - apply in_order_by, filter_In in H as [_ H].
    apply andb_true_iff in H as [H _]. apply andb_true_iff in H as [H _].
    apply opt_is_true, H.
  - apply in_order_by, filter_In in H as [_ H].
    apply andb_true_iff in H as [H _]. apply andb_true_iff in H. tauto.
  - apply in_order_by, filter_In in H as [_ H].
    apply andb_true_iff in H as [_ H]. apply is_none_true, H.
  - intros (H1 & H2 & H3 & H4). apply in_order_by, filter_In. split; [exact H1|].
    rewrite !andb_true_iff. repeat split;
      [apply opt_is_true, H2 | exact H3 | apply is_none_true, H4].
  - eapply sorted_weaken;
      [|apply (order_by_sorted by_created_desc by_created_desc_total)].
    intros x y H. apply Z.leb_le, H.
Qed.

Example replies_of_the_sample :
  get_replies Sample.threads Sample.top = [Sample.reply1]
  /\ top_level_comments Sample.threads Sample.live = [Sample.apart; Sample.top].
Proof. split; reflexivity. Qed.

Lemma find_after_update (cs : list Comment) i c x :
  find (fun c => cm_id c =? i) cs = Some c ->
  cm_id x = i ->
  find (fun c => cm_id c =? i) (map (fun r => if cm_id r =? i then x else r) cs)
  = Some x.
Proof.
  intros F Hx. induction cs as [|r cs IH]; [discriminate|].
  cbn [map find] in *. destruct (cm_id r =? i) eqn:E.
  - rewrite Hx, Z.eqb_refl. reflexivity.
  - rewrite E. apply IH, F.
Qed.

Lemma update_after_update (cs : list Comment) i x y :
  cm_id x = i ->
  map (fun r => if cm_id r =? i then y else r)
      (map (fun r => if cm_id r =? i then x else r) cs)
  = map (fun r => if cm_id r =? i then y else r) cs.
Proof.
  intro Hx. rewrite map_map. apply map_ext. intro r.
  destruct (cm_id r =? i) eqn:E; [|rewrite E; reflexivity].
  rewrite Hx, Z.eqb_refl. reflexivity.
Qed.

Lemma decide_twice (f g : Comment -> Comment) (s : Store) i c :
  (forall c, cm_id (f c) = cm_id c) ->
  (forall c, cm_id (g c) = cm_id c) ->
  (forall c, g (f c) = g c) ->
  find (fun c => cm_id c =? i) (comments s) = Some c ->
  find (fun c => cm_id c =? i) (comments (Comment_update (f c) s)) = Some (f c)
  /\ Comment_update (g (f c)) (Comment_update (f c) s) = Comment_update (g c) s.
Proof.
  intros Hf Hg Hgf F. pose proof (find_id_some _ _ _ F) as [_ Hid].
  unfold Comment_update. destruct s as [ar ca ta cs nl ko].
  cbn [comments with_comments articles categories all_tags newsletters contacts] in *.
  rewrite Hgf, Hf, Hg, Hid. split.
  - apply (find_after_update cs i c (f c) F). rewrite Hf. exact Hid.
  - unfold with_comments.
    cbn [comments articles categories all_tags newsletters contacts].
    f_equal. apply update_after_update. rewrite Hf. exact Hid.
Qed.

(** X15. The last decision on a comment stands: approving a comment
    that was rejected leaves the store as if it had only been approved,
    with the moderator and time of the approval, and rejecting one that
    was approved leaves it as if it had only been rejected. *)
Theorem last_moderation_wins :
  forall (s s1 : Store) (m1 m2 comment_id t1 t2 : Z),
    (admin_comment_reject s m1 comment_id t1 = Done s1 ->
     admin_comment_approve s1 m2 comment_id t2
     = admin_comment_approve s m2 comment_id t2)
    /\ (admin_comment_approve s m1 comment_id t1 = Done s1 ->
        admin_comment_reject s1 m2 comment_id t2
        = admin_comment_reject s m2 comment_id t2).
Proof.
  intros s s1 m1 m2 comment_id t1 t2.
  set (decide := fun (v : bool) (m t : Z) (c : Comment) =>
                   cm_with_moderated_at (Some t)
                     (cm_with_moderated_by (Some m)
                        (cm_with_is_moderated true (cm_with_is_approved v c)))).
  assert (Hid : forall v m t c, cm_id (decide v m t c) = cm_id c) by reflexivity.
  assert (Hov : forall v m t v' m' t' c,
             decide v' m' t' (decide v m t c) = decide v' m' t' c)
    by (intros; destruct c; reflexivity).
  split; unfold admin_comment_reject, admin_comment_approve;
    destruct (find _ (comments s)) as [c|] eqn:F; try discriminate;
    intro E; injection E as <-.
  - destruct (decide_twice (decide false m1 t1) (decide true m2 t2) s comment_id c
                (Hid _ _ _) (Hid _ _ _) (Hov _ _ _ _ _ _) F) as [F1 U].
    fold (decide false m1 t1 c). rewrite F1.
    fold (decide true m2 t2 (decide false m1 t1 c)). rewrite U. reflexivity.
  - destruct (decide_twice (decide true m1 t1) (decide false m2 t2) s comment_id c
                (Hid _ _ _) (Hid _ _ _) (Hov _ _ _ _ _ _) F) as [F1 U].
    fold (decide true m1 t1 c). rewrite F1.
    fold (decide false m2 t2 (decide true m1 t1 c)). rewrite U. reflexivity.
Qed.

Lemma last_moderation_wins_witness :
  exists s1,
    admin_comment_reject Sample.threads 9 1 70 = Done s1
    /\ admin_comment_approve s1 8 1 80 = admin_comment_approve Sample.threads 8 1 80.
Proof.
  eexists. split; [reflexivity|].
  apply (proj1 (last_moderation_wins Sample.threads _ 9 8 1 70 80)).
  reflexivity.
Defined.

(* ------------------------------------------------------------------ *)
(** ** More on the bulk actions *)

Lemma map_unchanged {A} (f : A -> A) l : (forall x, f x = x) -> map f l = l.
Proof. intro H. rewrite (map_ext f (fun x => x) H). apply map_id. Qed.


Lemma cascade_of_nothing cs k : cascade k [] cs = [].
Proof.
  apply cascade_of_closed. unfold next_round.
  induction cs as [|c cs IH]; [reflexivity|].
  cbn [filter]. destruct (cm_parent c); exact IH.
Qed.

Lemma filter_all {A} (P : A -> bool) l : (forall x, P x = true) -> filter P l = l.
Proof.
  intro H. induction l as [|x l IH]; [reflexivity|].
  cbn [filter]. rewrite H, IH. reflexivity.
Qed.

(** X16. A bulk request changes nothing when it is not a POST, when no
    item is selected, or when the action is none of the five the view
    knows. *)
Theorem bulk_action_without_effect :
  forall (s : Store) (action : string) (ids : list Z) (user now : Z),
    admin_bulk_actions s GET action ids user now = s
    /\ admin_bulk_actions s POST action [] user now = s
    /\ (action <> "publish_articles" -> action <> "unpublish_articles" ->
        action <> "approve_comments" -> action <> "delete_comments" ->
        action <> "mark_contacts_read" ->
        admin_bulk_actions s POST action ids user now = s).
Proof.
  intros s action ids user now. split; [reflexivity|]. split.
  - unfold admin_bulk_actions, delete_comments.
    rewrite cascade_of_nothing.
    destruct s as [ar ca ta cs nl ko].
    unfold with_articles, with_comments, with_contacts.
    cbn [articles categories all_tags comments newsletters contacts].
    repeat match goal with
           | |- context [if String.eqb action ?a then _ else _] =>
               destruct (String.eqb action a)
           end; f_equal;
      try (apply map_unchanged; intro; reflexivity);
      try (apply filter_all; intro; reflexivity).
  - intros H1 H2 H3 H4 H5. unfold admin_bulk_actions.
    apply String.eqb_neq in H1, H2, H3, H4, H5.
    rewrite H1, H2, H3, H4, H5. reflexivity.
Qed.

Lemma bulk_action_without_effect_witness :
  admin_bulk_actions Sample.threads POST "publish_article" [1; 2] 9 70
  = Sample.threads.
Proof.
  apply (proj2 (proj2 (bulk_action_without_effect Sample.threads "publish_article"
                         [1; 2] 9 70))); discriminate.
Defined.

(** X17. After the bulk action [unpublish_articles] no target is visible,
    none is in the article list under any filter and none is found by the
    detail page, while the status and the publication time of every row
    are as before. *)
Theorem unpublished_articles_leave_the_site :
  forall (s : Store) (ids : list Z) (user now : Z),
    let s' := admin_bulk_actions s POST "unpublish_articles" ids user now in
    (forall a, In a (articles s') -> In (a_id a) ids -> visible a = false)
    /\ (forall p a, In a (ArticleListView_get_queryset s' p) -> ~ In (a_id a) ids)
    /\ (forall sl a, ArticleDetailView_get_object s' sl = Some a -> ~ In (a_id a) ids)
    /\ map status (articles s') = map status (articles s)
    /\ map published_at (articles s') = map published_at (articles s)
    /\ map a_id (articles s') = map a_id (articles s).
Proof.
  intros s ids user now s'. subst s'. rewrite bulk_unpublish_articles.
  assert (K : forall a,
             In a (map (fun a => if mem (a_id a) ids
                                 then set_is_published false a else a) (articles s)) ->
             In (a_id a) ids -> visible a = false).
  { intros a H Hi. apply in_map_iff in H as (r & <- & _).
    destruct (mem (a_id r) ids) eqn:M.
    - unfold visible. cbn [is_published set_is_published]. apply andb_false_r.
    - apply mem_true in Hi. congruence. }
  split; [exact K|]. split; [|split].
  - intros p a H Hi.
    pose proof H as V. apply list_rows_are_visible, filter_In in V as [V1 V2].
    cbn [articles with_articles] in V1.
    rewrite (K a V1 Hi) in V2. discriminate.
  - intros sl a H Hi. unfold ArticleDetailView_get_object in H.
    apply find_some in H as [H _]. apply filter_In in H as [V1 V2].
    cbn [articles with_articles] in V1.
    rewrite (K a V1 Hi) in V2. discriminate.
  - rewrite !map_map. repeat split; apply map_ext; intro a;
      destruct (mem (a_id a) ids); reflexivity.
Qed.

Lemma unpublished_articles_leave_the_site_witness :
  visible (set_is_published false Sample.live) = false.
Proof.
  apply (proj1 (unpublished_articles_leave_the_site Sample.store [2] 9 70)).
  - right. left. reflexivity.
  - left. reflexivity.
Defined.

(* ------------------------------------------------------------------ *)
(** ** More on the newsletter *)

Lemma nodup_snoc {A} (l : list A) x : NoDup l -> ~ In x l -> NoDup (l ++ [x]).
Proof.
  intros N H. induction N as [|y l Hy N IH]; cbn [app].
  - constructor; [intros []|constructor].
  - constructor.
    + intro K. apply in_app_or in K as [K|[K|[]]]; [tauto|].
      subst. apply H. left. reflexivity.
    + apply IH. intro K. apply H. right. exact K.
Qed.

Lemma find_snoc {A} (P : A -> bool) l x :
  (forall y, In y l -> P y = false) -> P x = true -> find P (l ++ [x]) = Some x.
Proof.
  intros H Hx. induction l as [|y l IH]; cbn [app find].
  - rewrite Hx. reflexivity.
  - rewrite (H y) by (left; reflexivity). apply IH.
    intros z Hz. apply H. right. exact Hz.
Qed.

Lemma valid_form_new_email email_valid s p :
  NewsletterForm_is_valid email_valid s p = true ->
  forall n, In n (newsletters s) ->
            String.eqb (n_email n) (PyStr.strip (np_email p)) = false.
Proof.
  intros V n Hn. unfold NewsletterForm_is_valid in V.
  apply andb_true_iff in V as [_ V]. apply negb_true_iff in V.
  destruct (String.eqb (n_email n) (PyStr.strip (np_email p))) eqn:E; [|reflexivity].
  assert (existsb (fun n => String.eqb (n_email n) (PyStr.strip (np_email p)))
                  (newsletters s) = true) by (apply existsb_exists; eauto).
  congruence.
Qed.

(** X18. Subscribing keeps the table sound: if no two rows have the same
    e-mail address and no two the same key, this is still so after any
    request, valid or not, and the request touches no other table. *)
Theorem subscriptions_stay_unique :
  forall (email_valid : string -> bool) (s : Store) (method : Method)
         (p : NewsletterPost) (now : Z),
    NoDup (map n_email (newsletters s)) ->
    NoDup (map n_id (newsletters s)) ->
    let s' := newsletter_subscribe email_valid s method p now in
    NoDup (map n_email (newsletters s'))
    /\ NoDup (map n_id (newsletters s'))
    /\ articles s' = articles s /\ comments s' = comments s
    /\ categories s' = categories s.
Proof.
  intros email_valid s method p now Ne Ni s'. subst s'.
  destruct method; [cbn; auto|].
  destruct (NewsletterForm_is_valid email_valid s p) eqn:V.
  - destruct (subscribe_new_email email_valid s p now V) as (f & Hf & E).
    rewrite E. unfold newsletter_subscribe. rewrite V, Hf.
    cbn [articles comments categories with_newsletters].
    rewrite !map_app. cbn [map n_email n_id].
    repeat split.
    + apply nodup_snoc; [exact Ne|]. intro K.
      apply in_map_iff in K as (n & En & Hn).
      pose proof (valid_form_new_email email_valid s p V n Hn) as D.
      apply String.eqb_neq in D. contradiction.
    + apply nodup_snoc; [exact Ni|]. intro K. apply fresh_id_above in K. lia.
  - unfold newsletter_subscribe. rewrite V. auto.
Qed.

Lemma subscriptions_stay_unique_witness :
  NoDup (map n_email
           (newsletters (newsletter_subscribe (fun _ => true) Sample.readers POST
                           Sample.newcomer 99))).
Proof.
  apply (subscriptions_stay_unique (fun _ => true) Sample.readers POST
           Sample.newcomer 99).
  - repeat constructor. simpl. tauto.
  - repeat constructor. simpl. tauto.
Defined.

(** X19. A valid subscription can be read back: the table has one row
    more, and looking up the stripped address finds a row that is active,
    subscribed at the call time, with the frequency and the categories of
    the form. *)
Theorem new_subscription_is_stored :
  forall (email_valid : string -> bool) (s : Store) (p : NewsletterPost) (now : Z),
    NewsletterForm_is_valid email_valid s p = true ->
    let s' := newsletter_subscribe email_valid s POST p now in
    List.length (newsletters s') = S (List.length (newsletters s))
    /\ exists n,
         find (fun r => String.eqb (n_email r) (PyStr.strip (np_email p)))
              (newsletters s') = Some n
         /\ n_email n = PyStr.strip (np_email p)
         /\ n_is_active n = true /\ n_subscribed_at n = now
         /\ n_unsubscribed_at n = None
         /\ n_categories n = np_categories p
         /\ parse_frequency (np_frequency p) = Some (n_frequency n).
Proof.
  intros email_valid s p now V s'. subst s'.
  destruct (subscribe_new_email email_valid s p now V) as (f & Hf & E).
  rewrite E. split.
  - rewrite length_app. cbn [List.length]. lia.
  - eexists. split.
    + apply find_snoc.
      * apply (valid_form_new_email email_valid s p V).
      * cbn [n_email]. apply String.eqb_refl.
    + cbn. repeat split. exact Hf.
Qed.

Lemma new_subscription_is_stored_witness :
  List.length
    (newsletters (newsletter_subscribe (fun _ => true) Sample.readers POST
                    Sample.newcomer 99)) = 2%nat.
Proof.
  apply (proj1 (new_subscription_is_stored (fun _ => true) Sample.readers
                  Sample.newcomer 99 eq_refl)).
Defined.

(* ------------------------------------------------------------------ *)
(** ** Counters and series *)

Ltac bool_to_Z :=
  repeat match goal with
         | H : (_ <? _) = true |- _ => apply Z.ltb_lt in H
         | H : (_ <? _) = false |- _ => apply Z.ltb_ge in H
         | H : (_ <=? _) = true |- _ => apply Z.leb_le in H
         | H : (_ <=? _) = false |- _ => apply Z.leb_gt in H
         | H : (_ =? _) = true |- _ => apply Z.eqb_eq in H
         | H : (_ =? _) = false |- _ => apply Z.eqb_neq in H
         end.

Lemma sum_filter_split (R P Q : Article -> bool) l :
  (forall a, R a = P a || Q a) ->
  (forall a, P a && Q a = false) ->
  sum_views (filter R l) = sum_views (filter P l) + sum_views (filter Q l).
Proof.
  intros HR HD. induction l as [|a l IH]; [reflexivity|].
  cbn [filter]. rewrite HR. specialize (HD a).
  destruct (P a), (Q a); try discriminate; cbn [orb sum_views fold_right];
    fold (sum_views (filter R l)); fold (sum_views (filter P l));
    fold (sum_views (filter Q l)); lia.
Qed.

Lemma sum_snoc l x : fold_right Z.add 0 (l ++ [x]) = fold_right Z.add 0 l + x.
Proof. induction l as [|y l IH]; cbn [app fold_right]; lia. Qed.

(** The first [n] days of the series cover the [n] days up to today. *)
Lemma series_total s e n :
  fold_right Z.add 0 (map (fun i => views_on s (e - Z.of_nat i)) (seq 0 n))
  = sum_views
      (filter (fun a => Status_eqb (status a) Published
                        && match published_at a with
                           | Some t => (e - Z.of_nat n <? date_of t) && (date_of t <=? e)
                           | None => false
                           end) (articles s)).
Proof.
  induction n as [|n IH].
  - cbn [seq map fold_right]. rewrite (filter_ext _ (fun _ => false)).
    + induction (articles s) as [|a l IHl]; [reflexivity | exact IHl].
    + intro a. destruct (published_at a) as [t|]; [|apply andb_false_r].
      destruct (e - Z.of_nat 0 <? date_of t) eqn:A, (date_of t <=? e) eqn:B;
        rewrite ?andb_false_r; try reflexivity.
      bool_to_Z. lia.
  - rewrite seq_S, map_app. cbn [Nat.add map]. rewrite sum_snoc, IH.
    unfold views_on. symmetry. apply sum_filter_split.
    + intro a. destruct (Status_eqb (status a) Published);
        [|rewrite andb_false_r; reflexivity].
      unfold published_on. destruct (published_at a) as [t|]; [|reflexivity].
      cbn [andb]. rewrite andb_true_r.
      destruct (e - Z.of_nat (S n) <? date_of t) eqn:A,
               (e - Z.of_nat n <? date_of t) eqn:B,
               (date_of t <=? e) eqn:C,
               (date_of t =? e - Z.of_nat n) eqn:D; try reflexivity;
        bool_to_Z; lia.
    + intro a. destruct (Status_eqb (status a) Published);
        [|rewrite andb_false_r; reflexivity].
      unfold published_on. destruct (published_at a) as [t|]; [|reflexivity].
      cbn [andb]. rewrite andb_true_r.
      destruct (e - Z.of_nat n <? date_of t) eqn:B,
               (date_of t <=? e) eqn:C,
               (date_of t =? e - Z.of_nat n) eqn:D; try reflexivity;
        bool_to_Z; lia.
Qed.

(** X20. The daily series of the analytics page has 30 entries, today
    first and one day back at each step; each entry is the sum of the
    current view counts of the articles of status published that were
    published on that day, and the entries add up to the views of all
    such articles published in the 30 days up to today: every article is
    counted once, under its publication day. *)
Theorem daily_series_counts_each_article_once :
  forall (s : Store) (now : Z),
    let series := daily_views s now in
    List.length series = 30%nat
    /\ map fst series = map (fun i => date_of now - Z.of_nat i) (seq 0 30)
    /\ (forall d v, In (d, v) series -> v = views_on s d)
    /\ fold_right Z.add 0 (map snd series)
       = sum_views
           (filter (fun a => Status_eqb (status a) Published
                             && in_series_window now a) (articles s)).
Proof.
  intros s now series. subst series. unfold daily_views.
  split; [rewrite length_map; apply length_seq|]. split; [|split].
  - rewrite map_map. reflexivity.
  - intros d v H. apply in_map_iff in H as (i & E & _).
    injection E as <- <-. reflexivity.
  - rewrite map_map. cbn [snd]. rewrite (series_total s (date_of now) 30).
    f_equal. apply filter_ext. intro a. f_equal.
    unfold in_series_window. destruct (published_at a) as [t|]; [|reflexivity].
    f_equal. destruct (date_of now - Z.of_nat 30 <? date_of t) eqn:A,
                      (date_of now - 29 <=? date_of t) eqn:B; try reflexivity;
      bool_to_Z; lia.
Qed.

Lemma filter_map_length {A} (P : A -> bool) (f : A -> A) l :
  List.length (filter P (map f l)) = List.length (filter (fun x => P (f x)) l).
Proof.
  induction l as [|x l IH]; [reflexivity|].
  cbn [map filter]. destruct (P (f x)); cbn [List.length]; rewrite IH; reflexivity.
Qed.

(** X21. The dashboard counters follow the bulk actions: after
    [approve_comments] the pending comments are the ones that were pending
    and not selected, after [mark_contacts_read] the unread messages are
    the ones that were unread and not selected, and neither action changes
    the totals. *)
Theorem counters_after_bulk_actions :
  forall (s : Store) (ids : list Z) (user now : Z),
    let approved := admin_bulk_actions s POST "approve_comments" ids user now in
    let read := admin_bulk_actions s POST "mark_contacts_read" ids user now in
    pending_comments approved
    = List.length (filter (fun c => negb (cm_is_approved c) && negb (mem (cm_id c) ids))
                     (comments s))
    /\ total_comments approved = total_comments s
    /\ unread_contacts read
       = List.length (filter (fun k => negb (k_is_read k) && negb (mem (k_id k) ids))
                        (contacts s))
    /\ List.length (contacts read) = List.length (contacts s)
    /\ ((forall c, In c (comments s) -> cm_is_approved c = false -> In (cm_id c) ids)
        -> pending_comments approved = 0%nat).
Proof.
  intros s ids user now approved read. subst approved read.
  unfold pending_comments, total_comments, unread_contacts.
  change (comments (admin_bulk_actions s POST "approve_comments" ids user now))
    with (map (fun c => if mem (cm_id c) ids
                        then cm_with_moderated_at (Some now)
                               (cm_with_moderated_by (Some user)
                                  (cm_with_is_moderated true
                                     (cm_with_is_approved true c)))
                        else c) (comments s)).
  change (contacts (admin_bulk_actions s POST "mark_contacts_read" ids user now))
    with (map (fun k => if mem (k_id k) ids
                        then mkContactMessage (k_id k) (k_name k) (k_email k)
                               (k_subject k) (k_message k) true
                        else k) (contacts s)).
  rewrite !filter_map_length, !length_map.
  assert (E1 : forall l : list Comment,
             filter (fun c => negb (cm_is_approved
                       (if mem (cm_id c) ids
                        then cm_with_moderated_at (Some now)
                               (cm_with_moderated_by (Some user)
                                  (cm_with_is_moderated true
                                     (cm_with_is_approved true c)))
                        else c))) l
             = filter (fun c => negb (cm_is_approved c) && negb (mem (cm_id c) ids)) l).
  { intro l. apply filter_ext. intro c.
    destruct (mem (cm_id c) ids); cbn; [rewrite andb_false_r | rewrite andb_true_r];
      reflexivity. }
  assert (E2 : forall l : list ContactMessage,
             filter (fun k => negb (k_is_read
                       (if mem (k_id k) ids
                        then mkContactMessage (k_id k) (k_name k) (k_email k)
                               (k_subject k) (k_message k) true
                        else k))) l
             = filter (fun k => negb (k_is_read k) && negb (mem (k_id k) ids)) l).
  { intro l. apply filter_ext. intro k.
    destruct (mem (k_id k) ids); cbn; [rewrite andb_false_r | rewrite andb_true_r];
      reflexivity. }
  rewrite E1, E2. repeat split.
  intro H. induction (comments s) as [|c l IH]; [reflexivity|].
  cbn [filter]. destruct (cm_is_approved c) eqn:A; cbn [negb andb].
  - apply IH. intros c' Hc'. apply H. right. exact Hc'.
  - assert (M : mem (cm_id c) ids = true)
      by (apply mem_true, H; [left; reflexivity | exact A]).
    rewrite M. cbn [negb]. apply IH. intros c' Hc'. apply H. right. exact Hc'.
Qed.

Lemma counters_after_bulk_actions_witness :
  pending_comments
    (admin_bulk_actions Sample.moderated POST "approve_comments" [1] 9 90) = 0%nat.
Proof.
  apply (proj2 (proj2 (proj2 (proj2
           (counters_after_bulk_actions Sample.moderated [1] 9 90))))).
  intros c [<-|[<-|[<-|[<-|[]]]]]; cbn; intro E; try discriminate E.
  left. reflexivity.
Defined.

(* ------------------------------------------------------------------ *)
(** ** Page views, shares, contact messages *)

Lemma nodup_map_inj {A B} (f : A -> B) l x y :
  NoDup (map f l) -> In x l -> In y l -> f x = f y -> x = y.
Proof.
  induction l as [|z l IH]; intros N Hx Hy E; [destruct Hx|].
  inversion N as [|? ? Hz N']; subst.
  destruct Hx as [->|Hx], Hy as [->|Hy]; auto.
  - exfalso. apply Hz. rewrite E. apply in_map, Hy.
  - exfalso. apply Hz. rewrite <- E. apply in_map, Hx.
Qed.




(** X23. The share counter looks the article up by slug among all
    articles, drafts and withdrawn ones included.  An unknown slug changes
    nothing and is answered with a failure; otherwise the answer is the
    share count raised by one, the row of the article has that count, and
    every row with another key is untouched. *)
Theorem share_counter_outcomes :
  forall (slugify : string -> string) (s : Store) (sl : string) (now : Z),
    (find (fun a => String.eqb (slug a) sl) (articles s) = None ->
     increment_share_count_view slugify s sl now = (s, None))
    /\ (forall article,
          find (fun a => String.eqb (slug a) sl) (articles s) = Some article ->
          exists s',
            increment_share_count_view slugify s sl now
            = (s', Some (share_count article + 1))
            /\ In (set_share_count (share_count article + 1) article) (articles s')
            /\ map a_id (articles s') = map a_id (articles s)
            /\ (forall r, In r (articles s) -> a_id r <> a_id article ->
                          In r (articles s'))
            /\ comments s' = comments s).
Proof.
  intros slugify s sl now. unfold increment_share_count_view. split.
  - intros ->. reflexivity.
  - intros article F. rewrite F.
    apply find_some in F as [Hin _].
    unfold increment_share_count, persisted. cbn [fst snd fold_right write_field].
    destruct (save_view_count slugify now
                (set_share_count (share_count article + 1) article)) as [_ V].
    cbn [share_count set_share_count] in V. rewrite V.
    eexists. split; [reflexivity|].
    cbn [articles store_article with_articles comments a_id set_share_count].
    split; [|split; [|split]].
    + apply in_map_iff. exists article. rewrite Z.eqb_refl. auto.
    + rewrite map_map. apply map_ext. intro r.
      destruct (a_id r =? a_id article) eqn:Q; [|reflexivity].
      apply Z.eqb_eq in Q. cbn [a_id set_share_count]. auto.
    + intros r Hr Hne. apply in_map_iff. exists r.
      apply Z.eqb_neq in Hne. rewrite Hne. auto.
    + reflexivity.
Qed.

Lemma share_counter_outcomes_witness :
  exists s',
    increment_share_count_view Sample.slugify Sample.front
      "a-sufficiently-long-title-here" 500
    = (s', Some 1)
    /\ In (set_share_count 1 Sample.draft) (articles s').
Proof.
  destruct (proj2 (share_counter_outcomes Sample.slugify Sample.front
                     "a-sufficiently-long-title-here" 500)
              Sample.draft eq_refl) as (s' & E & H & _).
  exists s'. split; [exact E | exact H].
Defined.

Lemma find_marked (l : list ContactMessage) i k :
  find (fun k => k_id k =? i) l = Some k -> k_id k = i ->
  find (fun k => k_id k =? i)
       (map (fun r => if k_id r =? k_id k then mark_read k else r) l)
  = Some (mark_read k).
Proof.
  intros F Hid. induction l as [|r l IH]; [discriminate|].
  cbn [map find] in *. rewrite Hid. destruct (k_id r =? i) eqn:E.
  - cbn [k_id mark_read]. rewrite Hid, Z.eqb_refl. reflexivity.
  - rewrite E. rewrite Hid in IH. apply IH, F.
Qed.

(** X24. Marking one contact message as read answers 404 for an unknown
    key; for a known one, on a table with unique keys, it leaves the store
    as the bulk action [mark_contacts_read] on that one key does, and doing
    it again changes nothing more. *)
Theorem mark_read_outcomes :
  forall (s : Store) (contact_id user now : Z),
    (find (fun k => k_id k =? contact_id) (contacts s) = None ->
     admin_contact_mark_read s contact_id = Http404)
    /\ (forall k,
          find (fun k => k_id k =? contact_id) (contacts s) = Some k ->
          NoDup (map k_id (contacts s)) ->
          let s' := admin_bulk_actions s POST "mark_contacts_read" [contact_id] user now in
          admin_contact_mark_read s contact_id = Done s'
          /\ admin_contact_mark_read s' contact_id = Done s').
Proof.
  intros s contact_id user now. split.
  - unfold admin_contact_mark_read. intros ->. reflexivity.
  - intros k F N s'.
    assert (Hk : In k (contacts s) /\ k_id k = contact_id).
    { apply find_some in F as [H1 H2]. split; [exact H1 | lia]. }
    destruct Hk as [Hin Hid].
    assert (E : forall (l : list ContactMessage),
               (forall r, In r l -> k_id r = contact_id -> r = k) ->
               map (fun r => if k_id r =? k_id k then mark_read k else r) l
               = map (fun r => if mem (k_id r) [contact_id]
                               then mkContactMessage (k_id r) (k_name r) (k_email r)
                                      (k_subject r) (k_message r) true
                               else r) l).
    { intros l U. apply map_ext_in. intros r Hr.
      unfold mem. cbn [existsb]. rewrite orb_false_r, Hid.
      destruct (k_id r =? contact_id) eqn:Q; [|reflexivity].
      apply Z.eqb_eq in Q. rewrite (U r Hr Q). reflexivity. }
    assert (U : forall r, In r (contacts s) -> k_id r = contact_id -> r = k).
    { intros r Hr Q. apply (nodup_map_inj k_id (contacts s)); auto. congruence. }
    split.
    + unfold admin_contact_mark_read. rewrite F. subst s'.
      unfold admin_bulk_actions. cbn [String.eqb Ascii.eqb Bool.eqb andb].
      rewrite (E _ U). reflexivity.
    + subst s'. unfold admin_contact_mark_read, admin_bulk_actions.
      cbn [String.eqb Ascii.eqb Bool.eqb andb contacts with_contacts].
      rewrite <- (E _ U).
      erewrite (find_marked (contacts s) contact_id k F Hid).
      cbn [k_id mark_read]. f_equal. unfold with_contacts.
      cbn [articles categories all_tags comments newsletters contacts].
      f_equal. rewrite map_map. apply map_ext. intro r.
      destruct (k_id r =? k_id k) eqn:Q; [|rewrite Q; reflexivity].
      cbn [k_id mark_read]. rewrite Z.eqb_refl. reflexivity.
Qed.

Lemma mark_read_outcomes_witness :
  admin_contact_mark_read Sample.threads 1
  = Done (admin_bulk_actions Sample.threads POST "mark_contacts_read" [1] 9 70)
  /\ admin_contact_mark_read Sample.threads 5 = Http404.
Proof.
  split.
  - apply (proj2 (mark_read_outcomes Sample.threads 1 9 70) _ eq_refl).
    repeat constructor. simpl. tauto.
  - apply (proj1 (mark_read_outcomes Sample.threads 5 9 70)). reflexivity.
Defined.

Lemma run_keeps_reading_time_witness :
  reading_time
    (run Sample.slugify Sample.store Sample.live
       [(200, OpFormSave Sample.retitled); (300, OpView)])
  = Z.max 1
      (PyStr.wordCount
         (content (run Sample.slugify Sample.store Sample.live
                     [(200, OpFormSave Sample.retitled); (300, OpView)])) / 200).
Proof.
  apply (run_keeps_reading_time Sample.slugify Sample.store
           [(200, OpFormSave Sample.retitled); (300, OpView)] Sample.live).
  vm_compute. reflexivity.
Defined.
